(** * Research2PPT: the presentation model and its generation / edit / export
    lifecycle

    A shallow embedding of [src/App.tsx] (the application controller),
    [src/services/pdfService.ts] (PDF text extraction and, in the same file,
    the content generator) and the type declarations and [SlidePreview]
    component of [src/unnamed/part_000].

    React state is one record; every asynchronous handler is cut at its
    [await] into the part that runs at once and the part that runs when the
    promise settles, the values the handler closed over being stored with the
    pending promise. *)

From Stdlib Require Import String Ascii NArith DecimalString Lia.
From stdpp Require Import base list.

Local Open Scope N_scope.
Local Open Scope nat_scope.

(** ** JavaScript values *)

(** A JavaScript string is a sequence of UTF-16 code units; [length],
    [substring] and [trim] all count code units. *)
Definition jsstring := list N.

(** An ASCII literal of the source as a JavaScript string. *)
Definition lit (s : string) : jsstring :=
  map N_of_ascii (list_ascii_of_string s).

(** [!s] for a string: the empty string is falsy. *)
Definition falsy (s : jsstring) : bool :=
  match s with [] => true | _ => false end.

(** [!v] for [v : string | undefined]. *)
Definition falsy_opt (v : option jsstring) : bool :=
  match v with None => true | Some s => falsy s end.

(** [a || b] where [a : string | undefined]. *)
Definition or_else (a : option jsstring) (b : jsstring) : jsstring :=
  match a with
  | Some s => if falsy s then b else s
  | None => b
  end.

(** ECMAScript WhiteSpace and LineTerminator code points, the ones
    [String.prototype.trim] strips. *)
Definition is_white_space (c : N) : bool :=
  ((9 <=? c) && (c <=? 13) || (c =? 32) || (c =? 160) || (c =? 5760)
   || (8192 <=? c) && (c <=? 8202) || (c =? 8232) || (c =? 8233)
   || (c =? 8239) || (c =? 8287) || (c =? 12288) || (c =? 65279))%N.

Fixpoint trimStart (s : jsstring) : jsstring :=
  match s with
  | c :: s' => if is_white_space c then trimStart s' else s
  | [] => []
  end.

Definition trimEnd (s : jsstring) : jsstring := rev (trimStart (rev s)).

Definition trim (s : jsstring) : jsstring := trimEnd (trimStart s).

(** [s.substring(0, n)]. *)
Definition substring0 (n : N) (s : jsstring) : jsstring := take (N.to_nat n) s.

(** [parts.join(sep)] on an array of strings. *)
Fixpoint join (sep : jsstring) (parts : list jsstring) : jsstring :=
  match parts with
  | [] => []
  | [p] => p
  | p :: rest => p ++ sep ++ join sep rest
  end.

(** Decimal rendering of a non-negative integer below 10^21, as a template
    literal prints it (from 10^21 on JavaScript switches to exponent
    notation; the slide count printed here is 5, 8 or 12). *)
Definition number_toString (n : N) : jsstring :=
  lit (NilZero.string_of_uint (N.to_uint n)).

(** A thrown value.  The handlers read only [err.message], which may be
    missing ([catch (err: any)]). *)
Record JsError := mkJsError { message : option jsstring }.

(** [new Error(msg)]. *)
Definition Error (msg : string) : JsError := mkJsError (Some (lit msg)).

(** The way a promise settles. *)
Inductive promise (A : Type) :=
| Resolved (a : A)
| Rejected (e : JsError).
Arguments Resolved {A} a.
Arguments Rejected {A} e.

(** [await p] followed by the rest of an async function. *)
Definition bind_promise {A B} (p : promise A) (k : A -> promise B) : promise B :=
  match p with
  | Resolved a => k a
  | Rejected e => Rejected e
  end.

Notation "'await' x <- p ; k" := (bind_promise p (fun x => k))
  (at level 10, x name, p at level 100, k at level 200).

(** [try { p } catch (error) { throw e' }]. *)
Definition catch_rethrow {A} (p : promise A) (e' : JsError) : promise A :=
  match p with
  | Resolved a => Resolved a
  | Rejected _ => Rejected e'
  end.

(** ** Types of [types.ts] *)

Inductive TemplateId := classic | modern | dark | corporate.

Inductive AppStatus :=
| IDLE | PARSING_PDF | GENERATING_CONTENT | GENERATING_PPT | SUCCESS | ERROR.

Inductive DetailLevel := brief | detailed.
Inductive Audience := academic | general | executive.

(** A slide object as it exists at run time.  The interface declares
    [title], [bulletPoints] and [speakerNotes] as required, but
    [handleUpdateSlideImage] builds slides by spreading an array element that
    may be [undefined], so a property that is not there reads as [None]. *)
Record SlideData := mkSlide {
  slide_title : option jsstring;
  slide_bulletPoints : option (list jsstring);
  slide_speakerNotes : option jsstring;
  slide_image : option jsstring   (* Base64 data URI *)
}.

(** A JavaScript array of slides; [None] is an element that reads as
    [undefined] (a hole left by a write past the end). *)
Abbreviation SlideArray := (list (option SlideData)).

Record PresentationData := mkPresentation {
  pd_title : jsstring;
  pd_subtitle : option jsstring;
  pd_slides : SlideArray;
  pd_template : option TemplateId;
  pd_titleImage : option jsstring
}.

Record GenerationConfig := mkConfig {
  numSlides : N;
  detailLevel : DetailLevel;
  audience : Audience;
  template : TemplateId;
  titleImage : option jsstring
}.

(** The string value of each literal type. *)
Definition TemplateId_js (t : TemplateId) : jsstring :=
  match t with
  | classic => lit "classic"
  | modern => lit "modern"
  | dark => lit "dark"
  | corporate => lit "corporate"
  end.

Definition DetailLevel_js (d : DetailLevel) : jsstring :=
  match d with brief => lit "brief" | detailed => lit "detailed" end.

Definition Audience_js (a : Audience) : jsstring :=
  match a with
  | academic => lit "academic"
  | general => lit "general"
  | executive => lit "executive"
  end.

(** The four known template identifiers. *)
Definition known_templates : list jsstring :=
  map TemplateId_js [classic; modern; dark; corporate].

(** ** The browser and the services the code calls *)

(** What the input element hands over: the declared MIME type and an
    identifier for the contents. *)
Record File := mkFile {
  file_type : jsstring;
  file_id : nat
}.

(** pdf.js objects, reduced to what [extractTextFromPdf] reads. *)
Record TextItem := mkItem { str : jsstring }.
Record TextContent := mkTextContent { items : list TextItem }.
Record PdfPage := mkPage { getTextContent : promise TextContent }.
Record PdfDocument := mkPdf {
  pdf_numPages : nat;
  getPage : nat -> promise PdfPage
}.

(** [response.text] of the generation service. *)
Record GenerateContentResponse := mkResponse { response_text : option jsstring }.

(** The object [JSON.parse] returns, with the shape the response schema
    asks for. *)
Record ParsedResult := mkParsed {
  result_title : jsstring;
  result_subtitle : option jsstring;
  result_slides : SlideArray
}.

(** Everything outside the repository that the handlers await. *)
Record World := mkWorld {
  API_KEY : option jsstring;                         (* process.env.API_KEY *)
  generateContent : jsstring -> promise GenerateContentResponse;
                                                     (* keyed by the prompt *)
  JSON_parse : jsstring -> promise ParsedResult;
  file_text : File -> promise jsstring;              (* file.text() *)
  loadPdf : File -> promise PdfDocument;
    (* file.arrayBuffer(), the import of pdf.js, getDocument(...).promise *)
  readAsDataURL : File -> promise jsstring;          (* FileReader *)
  generatePptFile : PresentationData -> promise unit (* services/pptService *)
}.

(** ** [services/pdfService.ts] *)

(** The two-character string the loop appends after every page. *)
Definition blank_line : jsstring := [10; 10]%N.

(** [textContent.items.map(item => item.str).join(' ')]. *)
Definition pageText (textContent : TextContent) : jsstring :=
  join (lit " ") (map str (items textContent)).

(** The loop [for (let i = 1; i <= maxPages; i++)], entered at page [i] with
    [remaining = maxPages + 1 - i] iterations to go. *)
Fixpoint extract_loop (pdf : PdfDocument) (i remaining : nat)
    (fullText : jsstring) : promise jsstring :=
  match remaining with
  | 0 => Resolved fullText
  | S remaining' =>
      await page <- getPage pdf i;
      await textContent <- getTextContent page;
      extract_loop pdf (S i) remaining'
        (fullText ++ pageText textContent ++ blank_line)
  end.

Definition extractTextFromPdf (w : World) (file : File) : promise jsstring :=
  catch_rethrow
    (await pdf <- loadPdf w file;
     let numPages := pdf_numPages pdf in
     (* Limit to first 15 pages *)
     let maxPages := Nat.min numPages 15 in
     extract_loop pdf 1 maxPages [])
    (Error "Failed to extract text from PDF. Please try copying the text manually.").

(** ** [services/geminiService.ts] *)

Definition initGenAI (w : World) : promise unit :=
  if falsy_opt (API_KEY w)
  then Rejected (Error "API Key is missing. Please check your environment configuration.")
  else Resolved tt.

Definition nl : jsstring := [10]%N.

(** The template literal [prompt]. *)
Definition build_prompt (text : jsstring) (config : GenerationConfig) : jsstring :=
  nl ++
  lit "    Analyze the following academic/research text and structure it into a PowerPoint presentation." ++ nl ++
  lit "    " ++ nl ++
  lit "    Target Audience: " ++ Audience_js (audience config) ++ nl ++
  lit "    Detail Level: " ++ DetailLevel_js (detailLevel config) ++ nl ++
  lit "    Approximate Number of Slides: " ++ number_toString (numSlides config) ++ nl ++
  lit "    " ++ nl ++
  lit "    Requirements:" ++ nl ++
  lit "    1. Create a compelling Title Slide." ++ nl ++
  lit "    2. Break down the paper into logical sections (Introduction, Methodology, Results, Discussion, Conclusion)." ++ nl ++
  lit "    3. For each slide, provide a clear Title, 3-5 concise Bullet Points, and detailed Speaker Notes explaining the points." ++ nl ++
  lit "    " ++ nl ++
  lit "    Input Text:" ++ nl ++
  lit "    " ++ substring0 30000%N text ++
  lit " // Truncate to avoid hard limits, though Flash handles large context well." ++ nl ++
  lit "  ".

(** The [try] block rethrows what it catches, so it is left out. *)
Definition generatePresentationContent (w : World) (text : jsstring)
    (config : GenerationConfig) : promise PresentationData :=
  await ai <- initGenAI w;
  let prompt := build_prompt text config in
  await response <- generateContent w prompt;
  let jsonText := response_text response in
  match jsonText with
  | Some json =>
      if falsy json then Rejected (Error "No content generated")
      else
        await result <- JSON_parse w json;
        (* Template and titleImage are undefined here, will be merged in App.tsx *)
        Resolved {| pd_title := result_title result;
                    pd_subtitle := result_subtitle result;
                    pd_slides := result_slides result;
                    pd_template := None;
                    pd_titleImage := None |}
  | None => Rejected (Error "No content generated")
  end.

(** ** [App.tsx]: state *)

Inductive Tab := tab_upload | tab_text.

(** The [useState] cells of [App]. *)
Record AppState := mkApp {
  status : AppStatus;
  inputText : jsstring;
  errorMsg : option jsstring;
  presentationData : option PresentationData;
  config : GenerationConfig;
  activeTab : Tab
}.

Definition setStatus (v : AppStatus) (s : AppState) : AppState :=
  mkApp v (inputText s) (errorMsg s) (presentationData s) (config s) (activeTab s).
Definition setInputText (v : jsstring) (s : AppState) : AppState :=
  mkApp (status s) v (errorMsg s) (presentationData s) (config s) (activeTab s).
Definition setErrorMsg (v : option jsstring) (s : AppState) : AppState :=
  mkApp (status s) (inputText s) v (presentationData s) (config s) (activeTab s).
Definition setPresentationData (v : option PresentationData) (s : AppState) : AppState :=
  mkApp (status s) (inputText s) (errorMsg s) v (config s) (activeTab s).
Definition setConfig (v : GenerationConfig) (s : AppState) : AppState :=
  mkApp (status s) (inputText s) (errorMsg s) (presentationData s) v (activeTab s).
Definition setActiveTab (v : Tab) (s : AppState) : AppState :=
  mkApp (status s) (inputText s) (errorMsg s) (presentationData s) (config s) v.

(** The initial values passed to [useState]. *)
Definition initial_config : GenerationConfig :=
  {| numSlides := 8; detailLevel := brief; audience := academic;
     template := classic; titleImage := None |}.

Definition initial_state : AppState :=
  {| status := IDLE; inputText := []; errorMsg := None;
     presentationData := None; config := initial_config;
     activeTab := tab_upload |}.

(** Object spreads [{ ...config, field: v }]. *)
Definition config_with_titleImage (c : GenerationConfig) (v : option jsstring) :=
  mkConfig (numSlides c) (detailLevel c) (audience c) (template c) v.
Definition config_with_template (c : GenerationConfig) (v : TemplateId) :=
  mkConfig (numSlides c) (detailLevel c) (audience c) v (titleImage c).
Definition config_with_audience (c : GenerationConfig) (v : Audience) :=
  mkConfig (numSlides c) (detailLevel c) v (template c) (titleImage c).
Definition config_with_numSlides (c : GenerationConfig) (v : N) :=
  mkConfig v (detailLevel c) (audience c) (template c) (titleImage c).
Definition config_with_detailLevel (c : GenerationConfig) (v : DetailLevel) :=
  mkConfig (numSlides c) v (audience c) (template c) (titleImage c).

(** [{ ...data, template: config.template, titleImage: config.titleImage }]. *)
Definition merge_visuals (data : PresentationData) (c : GenerationConfig)
    : PresentationData :=
  {| pd_title := pd_title data;
     pd_subtitle := pd_subtitle data;
     pd_slides := pd_slides data;
     pd_template := Some (template c);
     pd_titleImage := titleImage c |}.

(** [{ ...presentationData, slides: newSlides }]. *)
Definition presentation_with_slides (p : PresentationData) (newSlides : SlideArray)
    : PresentationData :=
  mkPresentation (pd_title p) (pd_subtitle p) newSlides (pd_template p)
    (pd_titleImage p).

(** [arr[i]]: out of range and holes read as [undefined]. *)
Definition array_get (arr : SlideArray) (i : nat) : option SlideData :=
  match arr !! i with
  | Some elem => elem
  | None => None
  end.

(** [arr[i] = x]: inside the array the element is replaced; past the end the
    array grows to length [i + 1], the gap being holes. *)
Definition array_set (arr : SlideArray) (i : nat) (x : SlideData) : SlideArray :=
  if i <? length arr then <[i := Some x]> arr
  else arr ++ replicate (i - length arr) None ++ [Some x].

(** [{ ...elem, image: v }]; spreading [undefined] contributes nothing. *)
Definition slide_with_image (elem : option SlideData) (v : option jsstring)
    : SlideData :=
  match elem with
  | Some sl => mkSlide (slide_title sl) (slide_bulletPoints sl)
                 (slide_speakerNotes sl) v
  | None => mkSlide None None None v
  end.

(** A promise a handler is suspended on, with what the handler closed over
    when it was called. *)
Inductive Pending :=
| AwaitPdfText (file : File)
    (* handleFileUpload at [await extractTextFromPdf(file)] *)
| AwaitFileText (file : File)
    (* handleFileUpload at [await file.text()] *)
| AwaitTitleBase64 (file : File) (config : GenerationConfig)
    (* handleTitleImageUpload at [await fileToBase64(file)] *)
| AwaitGenerate (inputText : jsstring) (config : GenerationConfig)
    (* handleGenerate at [await generatePresentationContent(inputText, config)] *)
| AwaitSlideBase64 (file : File) (presentationData : PresentationData) (index : nat)
    (* handleUpdateSlideImage at [await fileToBase64(file)] *)
| AwaitPpt (presentationData : PresentationData).
    (* handleDownload at [await generatePptFile(presentationData)] *)

(** ** [App.tsx]: handlers

    A handler maps the state of the render it was created in to the state
    after its synchronous part, together with the promise it is left waiting
    for, if any.  The [_settled] function of an asynchronous handler is the
    rest of its body: it reads the closed-over values and writes, through the
    [set...] functions, to the state current at that moment. *)

Definition is_pdf (file : File) : bool :=
  bool_decide (file_type file = lit "application/pdf").
Definition is_plain_text (file : File) : bool :=
  bool_decide (file_type file = lit "text/plain").

(** Calls of [console.error] and writes to the [value] of the two input
    elements (through [fileInputRef] and [titleImageInputRef]) touch nothing
    the handlers read, and are left out. *)

(** The [catch] block of [handleFileUpload]. *)
Definition handleFileUpload_catch (err : JsError) (s : AppState) : AppState :=
  setStatus ERROR
    (setErrorMsg (Some (or_else (message err) (lit "Failed to parse file."))) s).

Definition handleFileUpload (s : AppState) (f : option File)
    : AppState * option Pending :=
  match f with
  | None => (s, None)
  | Some file =>
      let s1 := setErrorMsg None (setStatus PARSING_PDF s) in
      if is_pdf file then (s1, Some (AwaitPdfText file))
      else if is_plain_text file then (s1, Some (AwaitFileText file))
      else
        (handleFileUpload_catch
           (Error "Unsupported file format. Please upload PDF or TXT.") s1,
         None)
  end.

(** From the point where [text] has been awaited. *)
Definition handleFileUpload_settled (r : promise jsstring) (s : AppState)
    : AppState :=
  match r with
  | Resolved text =>
      if length text <? 50
      then handleFileUpload_catch
             (Error "The document appears to be empty or unreadable.") s
      else setActiveTab tab_text (setStatus IDLE (setInputText text s))
  | Rejected err => handleFileUpload_catch err s
  end.

Definition handleTitleImageUpload (s : AppState) (f : option File)
    : AppState * option Pending :=
  match f with
  | None => (s, None)
  | Some file => (s, Some (AwaitTitleBase64 file (config s)))
  end.

Definition handleTitleImageUpload_settled (r : promise jsstring)
    (config : GenerationConfig) (s : AppState) : AppState :=
  match r with
  | Resolved base64 => setConfig (config_with_titleImage config (Some base64)) s
  | Rejected _ => setErrorMsg (Some (lit "Failed to process image.")) s
  end.

Definition removeTitleImage (s : AppState) : AppState :=
  setConfig (config_with_titleImage (config s) None) s.

Definition handleGenerate (s : AppState) : AppState * option Pending :=
  if falsy (trim (inputText s)) then
    (setErrorMsg (Some (lit "Please provide text or upload a document first.")) s,
     None)
  else
    (setErrorMsg None (setStatus GENERATING_CONTENT s),
     Some (AwaitGenerate (inputText s) (config s))).

Definition handleGenerate_settled (r : promise PresentationData)
    (config : GenerationConfig) (s : AppState) : AppState :=
  match r with
  | Resolved data =>
      (* Merge config visuals into the data *)
      setStatus SUCCESS (setPresentationData (Some (merge_visuals data config)) s)
  | Rejected err =>
      setStatus ERROR
        (setErrorMsg
           (Some (or_else (message err)
                    (lit "AI Generation failed. Please try again."))) s)
  end.

(** [newSlides[index] = { ...newSlides[index], image: v }] on the copy
    [newSlides = [...presentationData.slides]], then
    [setPresentationData({ ...presentationData, slides: newSlides })]. *)
Definition update_slide_image (p : PresentationData) (index : nat)
    (v : option jsstring) : PresentationData :=
  let newSlides := pd_slides p in
  presentation_with_slides p
    (array_set newSlides index (slide_with_image (array_get newSlides index) v)).

Definition handleUpdateSlideImage (s : AppState) (index : nat) (f : option File)
    : AppState * option Pending :=
  match presentationData s with
  | None => (s, None)
  | Some p =>
      match f with
      | Some file => (s, Some (AwaitSlideBase64 file p index))
      | None =>
          (* Remove image *)
          (setPresentationData (Some (update_slide_image p index None)) s, None)
      end
  end.

Definition handleUpdateSlideImage_settled (r : promise jsstring)
    (p : PresentationData) (index : nat) (s : AppState) : AppState :=
  match r with
  | Resolved base64 =>
      setPresentationData (Some (update_slide_image p index (Some base64))) s
  | Rejected _ => s
  end.

Definition handleDownload (s : AppState) : AppState * option Pending :=
  match presentationData s with
  | None => (s, None)
  | Some p => (setStatus GENERATING_PPT s, Some (AwaitPpt p))
  end.

Definition handleDownload_settled (r : promise unit) (s : AppState) : AppState :=
  match r with
  | Resolved _ => setStatus SUCCESS s
  | Rejected _ =>
      setStatus ERROR (setErrorMsg (Some (lit "Failed to generate PPT file.")) s)
  end.

Definition resetApp (s : AppState) : AppState :=
  setConfig (config_with_titleImage (config s) None)
    (setErrorMsg None
       (setActiveTab tab_upload
          (setStatus IDLE (setInputText [] (setPresentationData None s))))).

(** The rest of the handler that waits on [p], run when the promise
    settles the way the world [w] decides. *)
Definition settled (w : World) (p : Pending) (s : AppState) : AppState :=
  match p with
  | AwaitPdfText file => handleFileUpload_settled (extractTextFromPdf w file) s
  | AwaitFileText file => handleFileUpload_settled (file_text w file) s
  | AwaitTitleBase64 file c =>
      handleTitleImageUpload_settled (readAsDataURL w file) c s
  | AwaitGenerate text c =>
      handleGenerate_settled (generatePresentationContent w text c) c s
  | AwaitSlideBase64 file pd index =>
      handleUpdateSlideImage_settled (readAsDataURL w file) pd index s
  | AwaitPpt pd => handleDownload_settled (generatePptFile w pd) s
  end.

(** ** [App.tsx] and [SlidePreview]: what is rendered, and the events it takes *)

(** [!presentationData ? <input section> : <results section>]. *)
Definition input_section (s : AppState) : bool :=
  match presentationData s with None => true | Some _ => false end.

(** [inputText.length > 0 && <configuration options>], inside the input
    section. *)
Definition config_panel (s : AppState) : bool :=
  input_section s && (0 <? length (inputText s)).

Definition status_is (v : AppStatus) (s : AppState) : bool :=
  match status s, v with
  | IDLE, IDLE | PARSING_PDF, PARSING_PDF
  | GENERATING_CONTENT, GENERATING_CONTENT | GENERATING_PPT, GENERATING_PPT
  | SUCCESS, SUCCESS | ERROR, ERROR => true
  | _, _ => false
  end.

Definition tab_is (v : Tab) (s : AppState) : bool :=
  match activeTab s, v with
  | tab_upload, tab_upload | tab_text, tab_text => true
  | _, _ => false
  end.

(** The options of the slide-count [select]. *)
Definition numSlides_options : list N := [5; 8; 12]%N.

(** [slide.image && <remove button>] of the slide card at [index]. *)
Definition slide_has_image (s : AppState) (index : nat) : bool :=
  match presentationData s with
  | Some p =>
      match array_get (pd_slides p) index with
      | Some sl => negb (falsy_opt (slide_image sl))
      | None => false
      end
  | None => false
  end.

(** One card per element of [presentationData.slides.map(...)]. *)
Definition slide_card (s : AppState) (index : nat) : bool :=
  match presentationData s with
  | Some p => index <? length (pd_slides p)
  | None => false
  end.

Inductive Event :=
| ClickLogo                                 (* header, [onClick={resetApp}] *)
| ClickTab (t : Tab)
| ChangeFileInput (f : option File)         (* [onChange={handleFileUpload}] *)
| ChangeTextarea (v : jsstring)
| ClickTemplate (id : TemplateId)
| ChangeTitleImageInput (f : option File)
| ClickRemoveTitleImage
| ChangeAudience (v : Audience)
| ChangeNumSlides (v : N)
| ChangeDetailLevel (v : DetailLevel)
| ClickGenerate
| ClickCreateNew
| ClickDownload
| ChangeSlideImageInput (index : nat) (f : option File)
| ClickRemoveSlideImage (index : nat).

(** Whether the element that takes the event is rendered and active. *)
Definition enabled (s : AppState) (e : Event) : bool :=
  match e with
  | ClickLogo => true
  | ClickTab _ => input_section s
  | ChangeFileInput _ =>
      (* the label that opens the input has [pointer-events-none] while
         [status === AppStatus.PARSING_PDF] *)
      input_section s && tab_is tab_upload s && negb (status_is PARSING_PDF s)
  | ChangeTextarea _ => input_section s && tab_is tab_text s
  | ClickTemplate _ | ChangeAudience _ | ChangeDetailLevel _ => config_panel s
  | ChangeNumSlides v => config_panel s && bool_decide (v ∈ numSlides_options)
  | ChangeTitleImageInput _ =>
      config_panel s && falsy_opt (titleImage (config s))
  | ClickRemoveTitleImage =>
      config_panel s && negb (falsy_opt (titleImage (config s)))
  | ClickGenerate =>
      (* [disabled={status === AppStatus.GENERATING_CONTENT}] *)
      config_panel s && negb (status_is GENERATING_CONTENT s)
  | ClickCreateNew => negb (input_section s)
  | ClickDownload =>
      (* [disabled={status === AppStatus.GENERATING_PPT}] *)
      negb (input_section s) && negb (status_is GENERATING_PPT s)
  | ChangeSlideImageInput index _ => slide_card s index
  | ClickRemoveSlideImage index => slide_has_image s index
  end.

(** The handler bound to the element. *)
Definition handler (s : AppState) (e : Event) : AppState * option Pending :=
  match e with
  | ClickLogo | ClickCreateNew => (resetApp s, None)
  | ClickTab t => (setActiveTab t s, None)
  | ChangeFileInput f => handleFileUpload s f
  | ChangeTextarea v => (setInputText v s, None)
  | ClickTemplate id => (setConfig (config_with_template (config s) id) s, None)
  | ChangeTitleImageInput f => handleTitleImageUpload s f
  | ClickRemoveTitleImage => (removeTitleImage s, None)
  | ChangeAudience v => (setConfig (config_with_audience (config s) v) s, None)
  | ChangeNumSlides v => (setConfig (config_with_numSlides (config s) v) s, None)
  | ChangeDetailLevel v =>
      (setConfig (config_with_detailLevel (config s) v) s, None)
  | ClickGenerate => handleGenerate s
  | ClickDownload => handleDownload s
  | ChangeSlideImageInput index f =>
      (* handleImageUpload: [if (file) onUpdateImage(file)] *)
      match f with
      | Some file => handleUpdateSlideImage s index (Some file)
      | None => (s, None)
      end
  | ClickRemoveSlideImage index => handleUpdateSlideImage s index None
  end.

(** The application together with the promises still in flight. *)
Record Sys := mkSys {
  app : AppState;
  in_flight : list Pending
}.

Definition initial_sys : Sys := mkSys initial_state [].

Inductive Action :=
| User (e : Event)        (* an event on the page *)
| Settle (k : nat).       (* the [k]-th promise in flight settles *)

(** A user event on an element that is missing or disabled does nothing. *)
Definition dispatch (sys : Sys) (e : Event) : Sys :=
  if enabled (app sys) e then
    let (s', p) := handler (app sys) e in
    mkSys s' (in_flight sys ++ option_list p)
  else sys.

Definition step (w : World) (sys : Sys) (a : Action) : Sys :=
  match a with
  | User e => dispatch sys e
  | Settle k =>
      match in_flight sys !! k with
      | Some p => mkSys (settled w p (app sys)) (delete k (in_flight sys))
      | None => sys
      end
  end.

Definition run (w : World) (sys : Sys) (acts : list Action) : Sys :=
  foldl (step w) sys acts.

Inductive reachable (w : World) : Sys -> Prop :=
| reachable_initial : reachable w initial_sys
| reachable_step sys a : reachable w sys -> reachable w (step w sys a).

(** Calls of [generatePresentationContent] that have not settled yet. *)
Definition is_generation (p : Pending) : bool :=
  match p with AwaitGenerate _ _ => true | _ => false end.

Definition generations_in_flight (sys : Sys) : nat :=
  length (filter (fun p => is_generation p = true) (in_flight sys)).

(** ** Where the template is read when the result is rendered

    The functions below take the value as it is at run time, a string or
    [undefined]: a [switch] with a [default] branch and [||] are defined on
    every value, not only on the four of the type [TemplateId]. *)

(** [template={presentationData.template || 'classic'}], the prop handed to
    each [SlidePreview]. *)
Definition slide_template_prop (t : option jsstring) : jsstring :=
  or_else t (lit "classic").

(** [getHeaderColor] of [SlidePreview]. *)
Definition getHeaderColor (template : jsstring) : jsstring :=
  if bool_decide (template = lit "dark") then lit "bg-gray-900"
  else if bool_decide (template = lit "corporate") then lit "bg-emerald-700"
  else if bool_decide (template = lit "modern") then lit "bg-slate-900"
  else (* case 'classic': default: *) lit "bg-blue-600".

(** [template === 'dark' ? 'text-indigo-500' : 'text-blue-500']. *)
Definition bullet_color (template : jsstring) : jsstring :=
  if bool_decide (template = lit "dark") then lit "text-indigo-500"
  else lit "text-blue-500".

(** [backgroundColor] of the title slide preview, which reads
    [presentationData.template] itself. *)
Definition title_backgroundColor (t : option jsstring) : jsstring :=
  if bool_decide (t = Some (lit "dark")) then lit "#111827"
  else if bool_decide (t = Some (lit "corporate")) then lit "#059669"
  else lit "#2563EB".

(** The template of a stored presentation as a run-time value. *)
Definition template_value (p : PresentationData) : option jsstring :=
  TemplateId_js <$> pd_template p.

(** ** Vocabulary of the statements *)

(** Page [i] of [pdf] loads and its text content is [tc]. *)
Definition page_content (pdf : PdfDocument) (i : nat) (tc : TextContent) : Prop :=
  exists page, getPage pdf i = Resolved page /\ getTextContent page = Resolved tc.

(** What the loop leaves in [fullText]: every page followed by a blank line. *)
Definition pages_text (contents : nat -> TextContent) (first count : nat) : jsstring :=
  concat (map (fun i => pageText (contents i) ++ blank_line) (seq first count)).

(** Only white space, or nothing at all. *)
Definition blank (t : jsstring) : Prop :=
  Forall (fun c => is_white_space c = true) t.

(** The template of [p] is set. *)
Definition template_set (p : PresentationData) : Prop :=
  exists t, pd_template p = Some t.

Definition pending_template_set (p : Pending) : Prop :=
  match p with
  | AwaitSlideBase64 _ pd _ | AwaitPpt pd => template_set pd
  | _ => True
  end.

(** Every presentation the application holds, on the page or in the closure
    of a suspended handler, has its template set. *)
Definition templates_set (sys : Sys) : Prop :=
  (forall p, presentationData (app sys) = Some p -> template_set p)
  /\ Forall pending_template_set (in_flight sys).

(** ** Sample data *)

Definition pdf_file : File := mkFile (lit "application/pdf") 0.
Definition txt_file : File := mkFile (lit "text/plain") 1.
Definition png_file : File := mkFile (lit "image/png") 2.

(** Page [i] of the sample document reads "page i". *)
Definition sample_contents (i : nat) : TextContent :=
  mkTextContent [mkItem (lit "page"); mkItem (number_toString (N.of_nat i))].

(** A document of twenty pages. *)
Definition sample_pdf : PdfDocument :=
  {| pdf_numPages := 20;
     getPage := fun i => Resolved (mkPage (Resolved (sample_contents i))) |}.

Definition sample_text : jsstring :=
  lit "Abstract: we study how documents are turned into slide decks.".

Definition sample_slide (t : string) : SlideData :=
  mkSlide (Some (lit t)) (Some [lit "first"; lit "second"; lit "third"])
    (Some (lit "notes")) None.

Definition sample_result : ParsedResult :=
  mkParsed (lit "Deck") (Some (lit "Authors"))
    [Some (sample_slide "Introduction"); Some (sample_slide "Results")].

(** A world in which reading and generation succeed and export fails. *)
Definition sample_world : World :=
  {| API_KEY := Some (lit "key");
     generateContent := fun _ => Resolved (mkResponse (Some (lit "{json}")));
     JSON_parse := fun _ => Resolved sample_result;
     file_text := fun _ => Resolved sample_text;
     loadPdf := fun _ => Resolved sample_pdf;
     readAsDataURL := fun _ => Resolved (lit "data:image/png;base64,AAAA");
     generatePptFile := fun _ => Rejected (Error "serializer failed") |}.

(** Text is pasted and Generate is clicked. *)
Definition generating_trace : list Action :=
  [User (ClickTab tab_text); User (ChangeTextarea sample_text);
   User ClickGenerate].

(** ... then, before the answer arrives, the page is reset, text is pasted
    again and Generate is clicked again. *)
Definition regenerate_trace : list Action :=
  generating_trace ++
  [User ClickLogo; User (ClickTab tab_text); User (ChangeTextarea sample_text);
   User ClickGenerate].

(** Text pasted, five slides and the modern template chosen. *)
Definition sample_ready : AppState :=
  setConfig (config_with_template (config_with_numSlides initial_config 5) modern)
    (setInputText sample_text (setActiveTab tab_text initial_state)).

(** What the generator returns in the sample world. *)
Definition sample_data : PresentationData :=
  {| pd_title := result_title sample_result;
     pd_subtitle := result_subtitle sample_result;
     pd_slides := result_slides sample_result;
     pd_template := None;
     pd_titleImage := None |}.

(** The result page showing the sample deck. *)
Definition sample_shown : AppState :=
  setStatus SUCCESS
    (setPresentationData (Some (merge_visuals sample_data (config sample_ready)))
       sample_ready).

(** ** Further vocabulary and sample data *)

(** [errorMsg && <error message>]: the banner is an element of the input
    section; the results section has none. *)
Definition error_banner (s : AppState) : bool :=
  input_section s && negb (falsy_opt (errorMsg s)).

(** Page [i] of [pdf] cannot be loaded, or its text cannot. *)
Definition page_unreadable (pdf : PdfDocument) (i : nat) : Prop :=
  (exists e, getPage pdf i = Rejected e)
  \/ (exists page e, getPage pdf i = Resolved page
                     /\ getTextContent page = Rejected e).

Definition is_upload (p : Pending) : bool :=
  match p with AwaitPdfText _ | AwaitFileText _ => true | _ => false end.

Definition is_export (p : Pending) : bool :=
  match p with AwaitPpt _ => true | _ => false end.

(** Some promise in flight is of the given kind. *)
Definition some_in_flight (kind : Pending -> bool) (sys : Sys) : Prop :=
  Exists (fun p => kind p = true) (in_flight sys).

(** A busy status has its operation behind it. *)
Definition busy_status_backed (sys : Sys) : Prop :=
  (status (app sys) = PARSING_PDF -> some_in_flight is_upload sys)
  /\ (status (app sys) = GENERATING_CONTENT -> some_in_flight is_generation sys)
  /\ (status (app sys) = GENERATING_PPT -> some_in_flight is_export sys).

(** The index a suspended slide-image upload will write to lies inside the
    slides it closed over. *)
Definition pending_index_in_range (p : Pending) : Prop :=
  match p with
  | AwaitSlideBase64 _ pd index => index < length (pd_slides pd)
  | _ => True
  end.

(** The slide count is one the [select] offers. *)
Definition numSlides_offered (c : GenerationConfig) : Prop :=
  numSlides c ∈ numSlides_options.

Definition pending_numSlides_offered (p : Pending) : Prop :=
  match p with
  | AwaitTitleBase64 _ c | AwaitGenerate _ c => numSlides_offered c
  | _ => True
  end.

Definition all_numSlides_offered (sys : Sys) : Prop :=
  numSlides_offered (config (app sys))
  /\ Forall pending_numSlides_offered (in_flight sys).

(** Worlds that differ from a given one in a single service. *)
Definition world_with_API_KEY (w : World) (v : option jsstring) : World :=
  mkWorld v (generateContent w) (JSON_parse w) (file_text w) (loadPdf w)
    (readAsDataURL w) (generatePptFile w).
Definition world_with_generateContent (w : World)
    (v : jsstring -> promise GenerateContentResponse) : World :=
  mkWorld (API_KEY w) v (JSON_parse w) (file_text w) (loadPdf w)
    (readAsDataURL w) (generatePptFile w).
Definition world_with_JSON_parse (w : World)
    (v : jsstring -> promise ParsedResult) : World :=
  mkWorld (API_KEY w) (generateContent w) v (file_text w) (loadPdf w)
    (readAsDataURL w) (generatePptFile w).
Definition world_with_loadPdf (w : World) (v : File -> promise PdfDocument)
    : World :=
  mkWorld (API_KEY w) (generateContent w) (JSON_parse w) (file_text w) v
    (readAsDataURL w) (generatePptFile w).
Definition world_with_readAsDataURL (w : World) (v : File -> promise jsstring)
    : World :=
  mkWorld (API_KEY w) (generateContent w) (JSON_parse w) (file_text w)
    (loadPdf w) v (generatePptFile w).

(** A document of three pages. *)
Definition short_pdf : PdfDocument :=
  {| pdf_numPages := 3;
     getPage := fun i => Resolved (mkPage (Resolved (sample_contents i))) |}.

(** A scan of forty pages: every page loads and has no text items. *)
Definition scanned_pdf : PdfDocument :=
  {| pdf_numPages := 40;
     getPage := fun _ => Resolved (mkPage (Resolved (mkTextContent []))) |}.

(** Twenty pages, the seventh of which cannot be loaded. *)
Definition damaged_pdf : PdfDocument :=
  {| pdf_numPages := 20;
     getPage := fun i =>
       if i =? 7 then Rejected (Error "Invalid page request")
       else Resolved (mkPage (Resolved (sample_contents i))) |}.

(** An error without a [message]. *)
Definition bare_error : JsError := mkJsError None.

(** * Properties *)

(** ** Small facts about the state record *)

Lemma status_is_true v s : status_is v s = true <-> status s = v.
Proof. unfold status_is. destruct (status s), v; split; congruence. Qed.

Lemma falsy_nil (t : jsstring) : falsy t = true <-> t = [].
Proof. destruct t; simpl; split; congruence. Qed.

(** ** PDF extraction *)

Lemma extract_loop_pages pdf contents remaining :
  forall i fullText,
    (forall j, i <= j < i + remaining -> page_content pdf j (contents j)) ->
    extract_loop pdf i remaining fullText
    = Resolved (fullText ++ pages_text contents i remaining).
Proof.
  induction remaining as [|n IH]; intros i fullText Hpages.
  - unfold pages_text. simpl. by rewrite app_nil_r.
  - destruct (Hpages i) as (page & Hpage & Htc); [lia|].
    cbn [extract_loop]. rewrite Hpage. cbn [bind_promise]. rewrite Htc.
    cbn [bind_promise]. rewrite IH by (intros j Hj; apply Hpages; lia).
    unfold pages_text. cbn [seq map concat]. by rewrite <- !app_assoc.
Qed.

Lemma extractTextFromPdf_pages w file pdf contents :
  loadPdf w file = Resolved pdf ->
  (forall j, 1 <= j <= Nat.min (pdf_numPages pdf) 15 ->
             page_content pdf j (contents j)) ->
  extractTextFromPdf w file
  = Resolved (pages_text contents 1 (Nat.min (pdf_numPages pdf) 15)).
Proof.
  intros Hload Hpages. unfold extractTextFromPdf. rewrite Hload.
  cbn [bind_promise]. rewrite (extract_loop_pages pdf contents).
  - reflexivity.
  - intros j Hj. apply Hpages. lia.
Qed.

(** Appending the separator after every part is joining the parts and
    appending it once more. *)
Lemma concat_terminated_join (sep : jsstring) (parts : list jsstring) :
  parts <> [] ->
  concat (map (fun p => p ++ sep) parts) = join sep parts ++ sep.
Proof.
  induction parts as [|p rest IH]; intros Hne; [done|].
  destruct rest as [|q rest].
  - simpl. by rewrite app_nil_r.
  - change (join sep (p :: q :: rest)) with (p ++ sep ++ join sep (q :: rest)).
    cbn [map concat] in *. rewrite IH by done. by rewrite <- !app_assoc.
Qed.

Lemma pages_text_join contents first count :
  0 < count ->
  pages_text contents first count
  = join blank_line (map (fun i => pageText (contents i)) (seq first count))
    ++ blank_line.
Proof.
  intros Hcount. unfold pages_text.
  rewrite <- concat_terminated_join.
  - by rewrite map_map.
  - destruct count; [lia|]. done.
Qed.

(** C5 as the claim words it, with the blank line only between the pages,
    does not hold: on the twenty-page sample document the extracted text
    ends with a blank line after page 15. *)
Lemma extractTextFromPdf_not_only_separated :
  ~ (forall w file pdf contents,
       loadPdf w file = Resolved pdf ->
       15 < pdf_numPages pdf ->
       (forall j, 1 <= j <= 15 -> page_content pdf j (contents j)) ->
       extractTextFromPdf w file
       = Resolved (join blank_line
                     (map (fun i => pageText (contents i)) (seq 1 15)))).
Proof.
  intros Hclaim.
  specialize (Hclaim sample_world pdf_file sample_pdf sample_contents eq_refl).
  assert (Hlen : forall a b : jsstring,
             @Resolved jsstring a = Resolved b -> length a = length b)
    by (intros a b [= ->]; reflexivity).
  apply Hlen in Hclaim.
  - vm_compute in Hclaim. discriminate.
  - simpl. lia.
  - intros j _. eexists. split; reflexivity.
Qed.

(** C5 (amended): for every PDF with more than 15 pages, extraction returns
    the text of pages 1 to 15 in order, each page followed by a blank line:
    the pages joined by the blank-line separator, and the separator once
    more after page 15.  Page 16 and beyond are not read: any other document
    of more than 15 pages with the same first 15 pages gives the same
    text. *)
Theorem extractTextFromPdf_first_15_pages w file pdf contents :
  loadPdf w file = Resolved pdf ->
  15 < pdf_numPages pdf ->
  (forall j, 1 <= j <= 15 -> page_content pdf j (contents j)) ->
  extractTextFromPdf w file = Resolved (pages_text contents 1 15)
  /\ pages_text contents 1 15
     = join blank_line (map (fun i => pageText (contents i)) (seq 1 15))
       ++ blank_line
  /\ (forall w' file' pdf',
        loadPdf w' file' = Resolved pdf' ->
        15 < pdf_numPages pdf' ->
        (forall j, 1 <= j <= 15 -> getPage pdf' j = getPage pdf j) ->
        extractTextFromPdf w' file' = extractTextFromPdf w file).
Proof.
  intros Hload Hmany Hpages.
  assert (Hfirst : forall v f d,
             loadPdf v f = Resolved d ->
             15 < pdf_numPages d ->
             (forall j, 1 <= j <= 15 -> page_content d j (contents j)) ->
             extractTextFromPdf v f = Resolved (pages_text contents 1 15)).
  { intros v f d Hd Hn Hc.
    assert (Hmin : Nat.min (pdf_numPages d) 15 = 15) by lia.
    rewrite (extractTextFromPdf_pages v f d contents Hd).
    - by rewrite Hmin.
    - rewrite Hmin. exact Hc. }
  split_and!.
  - by apply (Hfirst w file pdf).
  - apply pages_text_join. lia.
  - intros w' file' pdf' Hload' Hmany' Hsame.
    rewrite (Hfirst w file pdf) by done.
    apply (Hfirst w' file' pdf'); [done..|].
    intros j Hj. unfold page_content. rewrite Hsame by done. by apply Hpages.
Qed.

Lemma extractTextFromPdf_first_15_pages_witness :
  extractTextFromPdf sample_world pdf_file
  = Resolved (pages_text sample_contents 1 15).
Proof.
  apply (extractTextFromPdf_first_15_pages sample_world pdf_file sample_pdf
           sample_contents).
  - reflexivity.
  - simpl. lia.
  - intros j _. eexists. split; reflexivity.
Defined.

(** ** Ingestion of uploaded files *)

(** C6: for a plain-text file whose text is [text], the upload handler waits
    for [file.text()]; when the text has at least 50 characters it becomes
    the input text unchanged (status [IDLE], no error), and when it is
    shorter the handler fails with the empty-or-unreadable message, status
    [ERROR], the input text staying what it was. *)
Theorem plain_text_ingestion w s s' file text :
  file_type file = lit "text/plain" ->
  file_text w file = Resolved text ->
  handleFileUpload s (Some file)
  = (setErrorMsg None (setStatus PARSING_PDF s), Some (AwaitFileText file))
  /\ (50 <= length text ->
      inputText (settled w (AwaitFileText file) s') = text
      /\ status (settled w (AwaitFileText file) s') = IDLE
      /\ errorMsg (settled w (AwaitFileText file) s') = errorMsg s')
  /\ (length text < 50 ->
      inputText (settled w (AwaitFileText file) s') = inputText s'
      /\ status (settled w (AwaitFileText file) s') = ERROR
      /\ errorMsg (settled w (AwaitFileText file) s')
         = Some (lit "The document appears to be empty or unreadable.")).
Proof.
  intros Htype Htext. split; [|split].
  - unfold handleFileUpload, is_pdf, is_plain_text. rewrite Htype. reflexivity.
  - intros Hlong. cbn [settled]. rewrite Htext. unfold handleFileUpload_settled.
    destruct (Nat.ltb_spec (length text) 50); [lia|]. done.
  - intros Hshort. cbn [settled]. rewrite Htext. unfold handleFileUpload_settled.
    destruct (Nat.ltb_spec (length text) 50); [|lia]. done.
Qed.

Lemma plain_text_ingestion_witness :
  handleFileUpload initial_state (Some txt_file)
  = (setErrorMsg None (setStatus PARSING_PDF initial_state),
     Some (AwaitFileText txt_file))
  /\ inputText (settled sample_world (AwaitFileText txt_file) initial_state)
     = sample_text.
Proof.
  destruct (plain_text_ingestion sample_world initial_state initial_state
              txt_file sample_text eq_refl eq_refl) as (Hstart & Hlong & _).
  split; [exact Hstart|].
  apply Hlong. vm_compute. lia.
Defined.

(** C7: for a file whose declared type is neither [application/pdf] nor
    [text/plain], the upload handler fails at once with the
    unsupported-format message and status [ERROR]; it awaits nothing, and
    the stored input text (and presentation) is what it was. *)
Theorem unsupported_format_rejected s file :
  file_type file <> lit "application/pdf" ->
  file_type file <> lit "text/plain" ->
  handleFileUpload s (Some file)
  = (setStatus ERROR
       (setErrorMsg
          (Some (lit "Unsupported file format. Please upload PDF or TXT.")) s),
     None)
  /\ inputText (fst (handleFileUpload s (Some file))) = inputText s
  /\ presentationData (fst (handleFileUpload s (Some file))) = presentationData s.
Proof.
  intros Hpdf Htxt. unfold handleFileUpload, is_pdf, is_plain_text.
  rewrite !bool_decide_eq_false_2 by done. done.
Qed.

Lemma unsupported_format_rejected_witness :
  inputText (fst (handleFileUpload (setInputText sample_text initial_state)
                    (Some png_file)))
  = sample_text.
Proof.
  apply (unsupported_format_rejected (setInputText sample_text initial_state)
           png_file).
  - vm_compute. discriminate.
  - vm_compute. discriminate.
Defined.

(** ** [trim] and blank input *)

Lemma trimStart_blank t : blank t -> trimStart t = [].
Proof.
  induction 1 as [|c t Hc _ IH]; [done|]. simpl. by rewrite Hc.
Qed.

Lemma trimStart_nil_blank t : trimStart t = [] -> blank t.
Proof.
  induction t as [|c t IH]; intros H; [apply Forall_nil_2|].
  simpl in H. destruct (is_white_space c) eqn:Hc; [|done].
  apply Forall_cons. split; [exact Hc | exact (IH H)].
Qed.

(** What [trimStart] leaves does not begin with white space. *)
Lemma trimStart_head t c r : trimStart t = c :: r -> is_white_space c = false.
Proof.
  induction t as [|d t IH]; intros H; [done|].
  simpl in H. destruct (is_white_space d) eqn:Hd; [auto|].
  by injection H as -> _.
Qed.

Lemma trim_blank t : blank t -> trim t = [].
Proof.
  intros H. unfold trim, trimEnd. by rewrite (trimStart_blank t H).
Qed.

Lemma trim_nil_blank t : trim t = [] -> blank t.
Proof.
  unfold trim, trimEnd. intros H.
  apply (f_equal (@rev N)) in H. rewrite rev_involutive in H. simpl in H.
  apply trimStart_nil_blank in H.
  destruct (trimStart t) as [|c r] eqn:Hstart.
  - by apply trimStart_nil_blank.
  - apply trimStart_head in Hstart.
    apply Forall_rev in H. rewrite rev_involutive in H.
    inversion H; congruence.
Qed.

(** [!inputText.trim()] holds exactly for blank input. *)
Lemma falsy_trim_blank t : falsy (trim t) = true <-> blank t.
Proof.
  rewrite falsy_nil. split; [apply trim_nil_blank | apply trim_blank].
Qed.

(** ** Generation *)

(** C10: when the input text is empty or only white space, [handleGenerate]
    sets the error message and does nothing else: no call of the generator
    is left in flight, and the status (like every other cell) keeps its
    value, so it is [ERROR] afterwards only if it was before. *)
Theorem generate_blank_input s :
  blank (inputText s) ->
  handleGenerate s
  = (setErrorMsg (Some (lit "Please provide text or upload a document first.")) s,
     None)
  /\ status (fst (handleGenerate s)) = status s
  /\ (status s <> ERROR -> status (fst (handleGenerate s)) <> ERROR).
Proof.
  intros Hblank. unfold handleGenerate.
  apply falsy_trim_blank in Hblank. rewrite Hblank. done.
Qed.

Lemma generate_blank_input_witness :
  status (fst (handleGenerate (setInputText [32; 9; 10; 160]%N initial_state)))
  = IDLE.
Proof.
  apply (generate_blank_input (setInputText [32; 9; 10; 160]%N initial_state)).
  repeat constructor.
Defined.

(** For input that is not blank the generator is called, with the input text
    and the configuration of the render the click happened in. *)
Lemma handleGenerate_starts s :
  ~ blank (inputText s) ->
  handleGenerate s
  = (setErrorMsg None (setStatus GENERATING_CONTENT s),
     Some (AwaitGenerate (inputText s) (config s))).
Proof.
  intros Hblank. unfold handleGenerate.
  destruct (falsy (trim (inputText s))) eqn:Htrim; [|done].
  by apply falsy_trim_blank in Htrim.
Qed.

(** The generator reads [audience], [detailLevel] and [numSlides] only. *)
Lemma build_prompt_ignores_visuals text c t img :
  build_prompt text (config_with_template (config_with_titleImage c img) t)
  = build_prompt text c.
Proof. reflexivity. Qed.

Lemma generator_ignores_visuals w text c t img :
  generatePresentationContent w text
    (config_with_template (config_with_titleImage c img) t)
  = generatePresentationContent w text c.
Proof.
  unfold generatePresentationContent.
  by rewrite build_prompt_ignores_visuals.
Qed.

(** Whatever the generator returns has neither field set. *)
Lemma generator_leaves_visuals_unset w text c data :
  generatePresentationContent w text c = Resolved data ->
  pd_template data = None /\ pd_titleImage data = None.
Proof.
  unfold generatePresentationContent. intros H.
  destruct (initGenAI w); [|done]. cbn [bind_promise] in H.
  destruct (generateContent w _) as [response|]; [|done].
  cbn [bind_promise] in H.
  destruct (response_text response) as [json|]; [|done].
  destruct (falsy json); [done|].
  destruct (JSON_parse w json); [|done].
  cbn [bind_promise] in H. by injection H as <-.
Qed.

(** C1 (amended): when Generate is clicked on a non-blank input and the
    generator answers with [data], the presentation stored is the title,
    subtitle and slides of [data] together with the template and title
    image of the configuration the click saw, the one handed to the
    generator, and the status is [SUCCESS]; that is the merge with the
    configuration current at that moment whenever its template and title
    image were not changed while the generator ran.  [data] itself has
    neither template nor title image, and the generator's answer is the
    same whatever template and title image the configuration carries. *)
Theorem generation_merges_config_visuals w s s' data :
  ~ blank (inputText s) ->
  generatePresentationContent w (inputText s) (config s) = Resolved data ->
  snd (handleGenerate s) = Some (AwaitGenerate (inputText s) (config s))
  /\ presentationData (settled w (AwaitGenerate (inputText s) (config s)) s')
     = Some {| pd_title := pd_title data;
               pd_subtitle := pd_subtitle data;
               pd_slides := pd_slides data;
               pd_template := Some (template (config s));
               pd_titleImage := titleImage (config s) |}
  /\ status (settled w (AwaitGenerate (inputText s) (config s)) s') = SUCCESS
  /\ pd_template data = None /\ pd_titleImage data = None
  /\ (forall t img,
        generatePresentationContent w (inputText s)
          (config_with_template (config_with_titleImage (config s) img) t)
        = Resolved data)
  /\ (template (config s') = template (config s) ->
      titleImage (config s') = titleImage (config s) ->
      presentationData (settled w (AwaitGenerate (inputText s) (config s)) s')
      = Some (merge_visuals data (config s'))).
Proof.
  intros Hblank Hgen. split_and!.
  - by rewrite handleGenerate_starts.
  - cbn [settled]. by rewrite Hgen.
  - cbn [settled]. by rewrite Hgen.
  - by destruct (generator_leaves_visuals_unset _ _ _ _ Hgen).
  - by destruct (generator_leaves_visuals_unset _ _ _ _ Hgen).
  - intros t img. by rewrite generator_ignores_visuals.
  - intros Ht Himg. cbn [settled]. rewrite Hgen. simpl.
    unfold merge_visuals. by rewrite Ht, Himg.
Qed.

Lemma generation_merges_config_visuals_witness :
  presentationData
    (settled sample_world (AwaitGenerate (inputText sample_ready) (config sample_ready))
       (setErrorMsg None (setStatus GENERATING_CONTENT sample_ready)))
  = Some {| pd_title := pd_title sample_data;
            pd_subtitle := pd_subtitle sample_data;
            pd_slides := pd_slides sample_data;
            pd_template := Some modern;
            pd_titleImage := None |}.
Proof.
  assert (Hblank : ~ blank (inputText sample_ready)).
  { intros Hblank. inversion Hblank as [|c r Hc _]. vm_compute in Hc.
    discriminate. }
  destruct (generation_merges_config_visuals sample_world sample_ready
              (setErrorMsg None (setStatus GENERATING_CONTENT sample_ready))
              sample_data Hblank eq_refl) as (_ & Hmerged & _).
  exact Hmerged.
Defined.

(** The scenario of pasted text, five slides and the modern template: one
    call of the generator, then the result page with the generator's slides
    under the modern template and no title image. *)
Example paste_configure_generate :
  run sample_world initial_sys
    [User (ClickTab tab_text); User (ChangeTextarea sample_text);
     User (ChangeNumSlides 5); User (ClickTemplate modern);
     User ClickGenerate; Settle 0]
  = mkSys sample_shown [].
Proof. reflexivity. Qed.

(** ** Reset *)

(** C4: from every state, [resetApp] gives status [IDLE], no presentation,
    empty input text and no error; of the configuration it clears the title
    image only, leaving template, audience, detail level and slide count as
    they were.  The header logo that triggers it is always active. *)
Theorem resetApp_clears_all_but_config_choices s :
  status (resetApp s) = IDLE
  /\ presentationData (resetApp s) = None
  /\ inputText (resetApp s) = []
  /\ errorMsg (resetApp s) = None
  /\ titleImage (config (resetApp s)) = None
  /\ template (config (resetApp s)) = template (config s)
  /\ audience (config (resetApp s)) = audience (config s)
  /\ detailLevel (config (resetApp s)) = detailLevel (config s)
  /\ numSlides (config (resetApp s)) = numSlides (config s)
  /\ (forall l, dispatch (mkSys s l) ClickLogo = mkSys (resetApp s) l).
Proof.
  repeat split. intros l. unfold dispatch. simpl. by rewrite app_nil_r.
Qed.

(** ** Export *)

(** C9: when the export of [p] fails, the rest of [handleDownload] sets the
    error message and status [ERROR] and leaves the presentation cell as
    it finds it; run right after the click it therefore still holds [p], and
    the Download button is active again and starts a new export of [p]. *)
Theorem export_failure_keeps_presentation w s s' p e :
  presentationData s = Some p ->
  generatePptFile w p = Rejected e ->
  handleDownload s = (setStatus GENERATING_PPT s, Some (AwaitPpt p))
  /\ presentationData (settled w (AwaitPpt p) s') = presentationData s'
  /\ status (settled w (AwaitPpt p) s') = ERROR
  /\ errorMsg (settled w (AwaitPpt p) s')
     = Some (lit "Failed to generate PPT file.")
  /\ presentationData (settled w (AwaitPpt p) (setStatus GENERATING_PPT s))
     = Some p
  /\ dispatch (mkSys (settled w (AwaitPpt p) (setStatus GENERATING_PPT s)) [])
       ClickDownload
     = mkSys (setStatus GENERATING_PPT
                (settled w (AwaitPpt p) (setStatus GENERATING_PPT s)))
         [AwaitPpt p].
Proof.
  intros Hp Hfail. cbn [settled]. rewrite Hfail.
  unfold handleDownload. rewrite Hp. repeat split; try done.
  unfold dispatch, enabled, handler, handleDownload, input_section, status_is.
  simpl. by rewrite Hp.
Qed.

Lemma export_failure_keeps_presentation_witness :
  presentationData
    (settled sample_world (AwaitPpt (merge_visuals sample_data (config sample_ready)))
       (setStatus GENERATING_PPT sample_shown))
  = Some (merge_visuals sample_data (config sample_ready)).
Proof.
  apply (export_failure_keeps_presentation sample_world sample_shown sample_shown
           (merge_visuals sample_data (config sample_ready))
           (Error "serializer failed")).
  - reflexivity.
  - reflexivity.
Defined.

(** ** Slide images *)

Lemma array_set_in_range (arr : SlideArray) i x :
  i < length arr -> array_set arr i x = <[i := Some x]> arr.
Proof.
  intros Hi. unfold array_set. by destruct (Nat.ltb_spec i (length arr)); [|lia].
Qed.

Lemma array_get_set (arr : SlideArray) i x :
  i < length arr -> array_get (array_set arr i x) i = Some x.
Proof.
  intros Hi. rewrite array_set_in_range by done.
  unfold array_get. by rewrite list_lookup_insert_eq.
Qed.

Lemma array_set_length (arr : SlideArray) i x :
  i < length arr -> length (array_set arr i x) = length arr.
Proof.
  intros Hi. rewrite array_set_in_range by done. apply length_insert.
Qed.

(** Writing twice at [i] keeps the second write. *)
Lemma array_set_twice (arr : SlideArray) i x y :
  i < length arr -> array_set (array_set arr i x) i y = array_set arr i y.
Proof.
  intros Hi. rewrite (array_set_in_range arr i x) by done.
  rewrite !array_set_in_range by (rewrite ?length_insert; done).
  apply list_insert_insert_eq.
Qed.

Lemma update_slide_image_read p i v :
  i < length (pd_slides p) ->
  array_get (pd_slides (update_slide_image p i v)) i
  = Some (slide_with_image (array_get (pd_slides p) i) v).
Proof. intros Hi. unfold update_slide_image. simpl. by apply array_get_set. Qed.

Lemma update_slide_image_length p i v :
  i < length (pd_slides p) ->
  length (pd_slides (update_slide_image p i v)) = length (pd_slides p).
Proof. intros Hi. unfold update_slide_image. simpl. by apply array_set_length. Qed.

(** Attaching and then removing gives back a slide that had no image. *)
Lemma update_slide_image_undo p i sl base64 :
  i < length (pd_slides p) ->
  array_get (pd_slides p) i = Some sl ->
  slide_image sl = None ->
  update_slide_image (update_slide_image p i (Some base64)) i None = p.
Proof.
  intros Hi Hget Himg.
  unfold update_slide_image at 1.
  rewrite update_slide_image_read by done.
  unfold update_slide_image, presentation_with_slides. simpl.
  rewrite array_set_twice by done. rewrite Hget. simpl.
  rewrite array_set_in_range by done.
  unfold array_get in Hget.
  destruct (pd_slides p !! i) as [elem|] eqn:Hlook; [|done]. subst elem.
  rewrite list_insert_id.
  - by destruct p.
  - rewrite Hlook. destruct sl. simpl in Himg. by subst.
Qed.

(** C8: for a presentation [p] on the page and an index [i] within its
    slides, attaching an image to slide [i] (the file read succeeding with
    [base64]) sets [slides[i].image] to it, and removing the image of slide
    [i] afterwards leaves [slides[i].image] absent, the number of slides
    being that of [p]; if slide [i] had no image to begin with, the
    presentation is [p] again. *)
Theorem attach_then_remove_slide_image w s file p i base64 :
  presentationData s = Some p ->
  i < length (pd_slides p) ->
  readAsDataURL w file = Resolved base64 ->
  handleUpdateSlideImage s i (Some file) = (s, Some (AwaitSlideBase64 file p i))
  /\ (exists p1 sl1,
        presentationData (settled w (AwaitSlideBase64 file p i) s) = Some p1
        /\ array_get (pd_slides p1) i = Some sl1
        /\ slide_image sl1 = Some base64)
  /\ (exists p2 sl2,
        presentationData
          (fst (handleUpdateSlideImage
                  (settled w (AwaitSlideBase64 file p i) s) i None))
        = Some p2
        /\ length (pd_slides p2) = length (pd_slides p)
        /\ array_get (pd_slides p2) i = Some sl2
        /\ slide_image sl2 = None
        /\ (forall sl, array_get (pd_slides p) i = Some sl ->
                       slide_image sl = None -> p2 = p)).
Proof.
  intros Hp Hi Hread. split; [|split].
  - unfold handleUpdateSlideImage. by rewrite Hp.
  - cbn [settled]. rewrite Hread. simpl.
    eexists _, _. split; [reflexivity|].
    rewrite update_slide_image_read by done. split; [reflexivity|].
    by destruct (array_get (pd_slides p) i).
  - cbn [settled]. rewrite Hread. simpl.
    unfold handleUpdateSlideImage. simpl.
    eexists _, _. split; [reflexivity|].
    assert (Hi1 : i < length (pd_slides (update_slide_image p i (Some base64))))
      by (by rewrite update_slide_image_length).
    rewrite !update_slide_image_length by done.
    rewrite update_slide_image_read by done.
    repeat split.
    + by destruct (array_get _ i).
    + intros sl Hget Himg. by apply (update_slide_image_undo p i sl).
Qed.

Lemma attach_then_remove_slide_image_witness :
  exists p2 sl2,
    presentationData
      (fst (handleUpdateSlideImage
              (settled sample_world
                 (AwaitSlideBase64 png_file
                    (merge_visuals sample_data (config sample_ready)) 1)
                 sample_shown) 1 None))
    = Some p2
    /\ array_get (pd_slides p2) 1 = Some sl2
    /\ slide_image sl2 = None.
Proof.
  destruct (attach_then_remove_slide_image sample_world sample_shown png_file
              (merge_visuals sample_data (config sample_ready)) 1
              (lit "data:image/png;base64,AAAA") eq_refl)
    as (_ & _ & p2 & sl2 & Hp2 & _ & Hget & Himg & _).
  - simpl. lia.
  - reflexivity.
  - exists p2, sl2. auto.
Defined.

(** ** The Generate button and calls in flight *)

Lemma run_reachable w acts :
  forall sys, reachable w sys -> reachable w (run w sys acts).
Proof.
  induction acts as [|a acts IH]; intros sys Hsys; [done|].
  simpl. apply IH. by constructor.
Qed.

(** C1 as the claim words it, with the configuration current when the
    answer is merged, does not hold: the handler reads the configuration it
    closed over.  After Generate, a click on the dark template while the
    generator runs, and the answer, the configuration says dark and the
    deck is classic. *)
Lemma generation_merge_not_with_current_config :
  ~ (forall w sys k text c data,
       reachable w sys ->
       in_flight sys !! k = Some (AwaitGenerate text c) ->
       generatePresentationContent w text c = Resolved data ->
       presentationData (app (step w sys (Settle k)))
       = Some (merge_visuals data (config (app sys)))).
Proof.
  intros Hclaim.
  specialize (Hclaim sample_world
                (run sample_world initial_sys
                   (generating_trace ++ [User (ClickTemplate dark)]))
                0 sample_text initial_config sample_data).
  assert (Hmerged :
            presentationData
              (app (step sample_world
                      (run sample_world initial_sys
                         (generating_trace ++ [User (ClickTemplate dark)]))
                      (Settle 0)))
            = Some (merge_visuals sample_data
                      (config_with_template initial_config dark))).
  { apply Hclaim; [|reflexivity..]. apply run_reachable. constructor. }
  vm_compute in Hmerged. discriminate.
Qed.

(** [handleGenerate] itself never looks at the status. *)
Lemma handleGenerate_ignores_status s v :
  snd (handleGenerate (setStatus v s)) = snd (handleGenerate s).
Proof. unfold handleGenerate. simpl. by destruct (falsy (trim (inputText s))). Qed.

(** C3 as the claim words it does not hold: the status is a single cell
    that reset (or a file upload) overwrites while the generator is still
    running.  After Generate, a click on the logo, fresh text and Generate
    again, two calls of the generator are in flight. *)
Lemma second_generation_while_one_in_flight :
  ~ (forall w sys,
       reachable w sys ->
       (status (app sys) = GENERATING_CONTENT ->
        step w sys (User ClickGenerate) = sys)
       /\ generations_in_flight sys <= 1).
Proof.
  intros Hclaim.
  destruct (Hclaim sample_world (run sample_world initial_sys regenerate_trace))
    as [_ Hone].
  - apply run_reachable. constructor.
  - vm_compute in Hone. lia.
Qed.

(** C3 (amended): in every state whose status is [GENERATING_CONTENT], a
    click on Generate is a no-op: the button is disabled, so neither the
    state nor the list of calls in flight changes, and no call of the
    generator is started from such a state. *)
Theorem generate_disabled_while_generating w sys :
  status (app sys) = GENERATING_CONTENT ->
  step w sys (User ClickGenerate) = sys
  /\ generations_in_flight (step w sys (User ClickGenerate))
     = generations_in_flight sys.
Proof.
  intros Hstatus.
  assert (Hstep : step w sys (User ClickGenerate) = sys).
  { cbn [step]. unfold dispatch. cbn [enabled].
    apply status_is_true in Hstatus. rewrite Hstatus.
    by rewrite andb_false_r. }
  by rewrite Hstep.
Qed.

Lemma generate_disabled_while_generating_witness :
  step sample_world (run sample_world initial_sys generating_trace)
    (User ClickGenerate)
  = run sample_world initial_sys generating_trace.
Proof.
  apply (generate_disabled_while_generating sample_world
           (run sample_world initial_sys generating_trace)).
  reflexivity.
Defined.

(** ** Templates *)

Lemma update_slide_image_template p i v :
  pd_template (update_slide_image p i v) = pd_template p.
Proof. reflexivity. Qed.

Lemma handler_templates_set s l e :
  templates_set (mkSys s l) ->
  templates_set (mkSys (fst (handler s e)) (l ++ option_list (snd (handler s e)))).
Proof.
  intros [Hpage Hflight]. simpl in Hpage.
  assert (Hsame : forall s',
             presentationData s' = presentationData s ->
             templates_set (mkSys s' (l ++ []))).
  { intros s' Hs'. split; simpl.
    - intros p. rewrite Hs'. apply Hpage.
    - by rewrite app_nil_r. }
  assert (Hnone : forall s',
             presentationData s' = None -> templates_set (mkSys s' (l ++ []))).
  { intros s' Hs'. split; simpl.
    - intros p. by rewrite Hs'.
    - by rewrite app_nil_r. }
  destruct e as [| t | [f|] | v | id | [f|] | | v | v | v | | | | index [f|] | index];
    simpl; try (by apply Hsame); try (by apply Hnone).
  - (* ChangeFileInput *)
    unfold handleFileUpload.
    destruct (is_pdf f); [|destruct (is_plain_text f)]; simpl;
      try (by apply Hsame); (split; simpl; [apply Hpage|]);
      apply Forall_app; split; try done; by repeat constructor.
  - (* ChangeTitleImageInput *)
    split; simpl; [apply Hpage|]. apply Forall_app. split; [done|].
    by repeat constructor.
  - (* ClickGenerate *)
    unfold handleGenerate. destruct (falsy _); simpl; [by apply Hsame|].
    split; simpl; [apply Hpage|]. apply Forall_app. split; [done|].
    by repeat constructor.
  - (* ClickDownload *)
    unfold handleDownload. destruct (presentationData s) as [p|] eqn:Hp; simpl;
      [|by apply Hsame].
    split; simpl; [by rewrite Hp|]. apply Forall_app. split; [done|].
    repeat constructor. by apply Hpage.
  - (* ChangeSlideImageInput *)
    unfold handleUpdateSlideImage.
    destruct (presentationData s) as [p|] eqn:Hp; simpl; [|by apply Hsame].
    split; simpl; [by rewrite Hp|]. apply Forall_app. split; [done|].
    repeat constructor. by apply Hpage.
  - (* ClickRemoveSlideImage *)
    unfold handleUpdateSlideImage.
    destruct (presentationData s) as [p|] eqn:Hp; simpl; [|by apply Hsame].
    split; simpl; [|by rewrite app_nil_r].
    intros p' [= <-]. exact (Hpage p eq_refl).
Qed.

Lemma settled_templates_set w p s :
  pending_template_set p ->
  (forall q, presentationData s = Some q -> template_set q) ->
  forall q, presentationData (settled w p s) = Some q -> template_set q.
Proof.
  intros Hp Hs q.
  destruct p as [file | file | file c | text c | file pd index | pd];
    cbn [settled].
  - unfold handleFileUpload_settled, handleFileUpload_catch.
    destruct (extractTextFromPdf w file) as [t|]; [destruct (_ <? _)|];
      simpl; apply Hs.
  - unfold handleFileUpload_settled, handleFileUpload_catch.
    destruct (file_text w file) as [t|]; [destruct (_ <? _)|];
      simpl; apply Hs.
  - unfold handleTitleImageUpload_settled.
    destruct (readAsDataURL w file); simpl; apply Hs.
  - unfold handleGenerate_settled.
    destruct (generatePresentationContent w text c) as [data|]; simpl;
      [|apply Hs].
    intros [= <-]. by eexists.
  - unfold handleUpdateSlideImage_settled.
    destruct (readAsDataURL w file); simpl; [|apply Hs].
    intros [= <-]. exact Hp.
  - unfold handleDownload_settled.
    destruct (generatePptFile w pd); simpl; apply Hs.
Qed.

(** Only [handleGenerate] creates a presentation, and it sets the template
    from the configuration; the slide-image handlers copy it. *)
Lemma reachable_templates_set w sys : reachable w sys -> templates_set sys.
Proof.
  induction 1 as [|sys a _ IH].
  - split; [done|constructor].
  - destruct a as [e|k]; cbn [step].
    + unfold dispatch. destruct (enabled (app sys) e); [|done].
      destruct sys as [s l].
      pose proof (handler_templates_set s l e IH) as Hnext.
      simpl. by destruct (handler s e).
    + destruct (in_flight sys !! k) as [p|] eqn:Hk; [|done].
      destruct IH as [Hpage Hflight]. split; simpl.
      * apply settled_templates_set; [|done].
        by apply (Forall_lookup_1 _ _ _ _ Hflight Hk).
      * by apply Forall_delete.
Qed.

Lemma known_template_elem t : TemplateId_js t ∈ known_templates.
Proof.
  apply list_elem_of_In. unfold known_templates.
  destruct t; simpl; auto 6.
Qed.

Lemma unknown_template_neq x t : x ∉ known_templates -> x <> TemplateId_js t.
Proof. intros Hx ->. apply Hx, known_template_elem. Qed.

(** C2 as the claim words it does not hold for the value itself: a template
    string outside the four ("neon") reaches the slide card unchanged,
    [||] replaces nothing but a missing or empty value. *)
Lemma unknown_template_not_rewritten :
  ~ (forall x : jsstring,
       x ∉ known_templates -> slide_template_prop (Some x) = lit "classic").
Proof.
  intros Hclaim. specialize (Hclaim (lit "neon")).
  assert (Hneon : lit "neon" ∉ known_templates).
  { intros Hin. apply list_elem_of_In in Hin. vm_compute in Hin.
    repeat (destruct Hin as [Hin|Hin]; [discriminate|]). done. }
  specialize (Hclaim Hneon). vm_compute in Hclaim. discriminate.
Qed.

(** C2 (amended): a template value [x] outside the four known identifiers
    is rendered like "classic": the slide cards get the header and bullet
    colours of classic and the title slide its background, all through the
    default branches.  The value is not rewritten on the way: a non-empty
    [x] is handed to the slide card as it is, and only a missing or empty
    template is replaced by "classic".  No such [x] is ever stored: for
    every presentation of the declared type the slide cards receive one of
    the four identifiers, and in every reachable state the presentation on
    the page has its template set to one of the four, which is the value
    [handleDownload] hands to the exporter. *)
Theorem unknown_template_renders_as_classic x :
  x ∉ known_templates ->
  getHeaderColor (slide_template_prop (Some x)) = getHeaderColor (lit "classic")
  /\ bullet_color (slide_template_prop (Some x)) = bullet_color (lit "classic")
  /\ title_backgroundColor (Some x) = title_backgroundColor (Some (lit "classic"))
  /\ (falsy x = false -> slide_template_prop (Some x) = x)
  /\ slide_template_prop None = lit "classic"
  /\ slide_template_prop (Some []) = lit "classic"
  /\ (forall p : PresentationData,
        slide_template_prop (template_value p) ∈ known_templates)
  /\ (forall w sys p,
        reachable w sys ->
        presentationData (app sys) = Some p ->
        (exists t, template_value p = Some (TemplateId_js t))
        /\ snd (handleDownload (app sys)) = Some (AwaitPpt p)).
Proof.
  intros Hx.
  pose proof (unknown_template_neq x dark Hx) as Hdark.
  pose proof (unknown_template_neq x corporate Hx) as Hcorporate.
  pose proof (unknown_template_neq x modern Hx) as Hmodern.
  simpl in Hdark, Hcorporate, Hmodern.
  assert (Hprop : slide_template_prop (Some x) = lit "classic"
                  \/ slide_template_prop (Some x) = x).
  { unfold slide_template_prop, or_else. destruct (falsy x); auto. }
  split_and!.
  - destruct Hprop as [-> | ->]; [done|]. unfold getHeaderColor.
    by rewrite !bool_decide_eq_false_2.
  - destruct Hprop as [-> | ->]; [done|]. unfold bullet_color.
    by rewrite !bool_decide_eq_false_2.
  - unfold title_backgroundColor.
    by rewrite !bool_decide_eq_false_2 by congruence.
  - intros Hfalsy. unfold slide_template_prop, or_else. by rewrite Hfalsy.
  - reflexivity.
  - reflexivity.
  - intros p. unfold template_value.
    destruct (pd_template p) as [t|]; simpl.
    + destruct t; apply (known_template_elem _).
    + apply (known_template_elem classic).
  - intros w sys p Hreach Hp.
    destruct (reachable_templates_set w sys Hreach) as [Hpage _].
    destruct (Hpage p Hp) as [t Ht]. split.
    + exists t. unfold template_value. by rewrite Ht.
    + unfold handleDownload. by rewrite Hp.
Qed.

Lemma unknown_template_renders_as_classic_witness :
  getHeaderColor (slide_template_prop (Some (lit "neon")))
  = getHeaderColor (lit "classic").
Proof.
  apply (unknown_template_renders_as_classic (lit "neon")).
  intros Hin. apply list_elem_of_In in Hin. vm_compute in Hin.
  repeat (destruct Hin as [Hin|Hin]; [discriminate|]). exact Hin.
Defined.

(** * Further properties *)

(** ** PDF extraction: short documents and failures *)

(** A document of at most 15 pages is extracted whole: every page, in
    order, each followed by a blank line; a document without pages gives
    the empty string. *)
Theorem extractTextFromPdf_short_document w file pdf contents :
  loadPdf w file = Resolved pdf ->
  pdf_numPages pdf <= 15 ->
  (forall j, 1 <= j <= pdf_numPages pdf -> page_content pdf j (contents j)) ->
  extractTextFromPdf w file
  = Resolved (pages_text contents 1 (pdf_numPages pdf))
  /\ (pdf_numPages pdf = 0 -> extractTextFromPdf w file = Resolved []).
Proof.
  intros Hload Hfew Hpages.
  assert (Hmin : Nat.min (pdf_numPages pdf) 15 = pdf_numPages pdf) by lia.
  assert (Hall : extractTextFromPdf w file
                 = Resolved (pages_text contents 1 (pdf_numPages pdf))).
  { rewrite (extractTextFromPdf_pages w file pdf contents Hload).
    - by rewrite Hmin.
    - by rewrite Hmin. }
  split; [done|]. intros Hzero. by rewrite Hall, Hzero.
Qed.

Lemma extractTextFromPdf_short_document_witness :
  extractTextFromPdf (world_with_loadPdf sample_world (fun _ => Resolved short_pdf))
    pdf_file
  = Resolved (pages_text sample_contents 1 3).
Proof.
  apply (extractTextFromPdf_short_document
           (world_with_loadPdf sample_world (fun _ => Resolved short_pdf))
           pdf_file short_pdf sample_contents).
  - reflexivity.
  - simpl. lia.
  - intros j _. eexists. split; reflexivity.
Defined.

Lemma extract_loop_unreadable pdf remaining :
  forall i k fullText,
    i <= k < i + remaining ->
    page_unreadable pdf k ->
    exists e, extract_loop pdf i remaining fullText = Rejected e.
Proof.
  induction remaining as [|n IH]; intros i k fullText Hk Hbad; [lia|].
  cbn [extract_loop].
  destruct (getPage pdf i) as [page|e] eqn:Hpage; [|by eexists].
  cbn [bind_promise].
  destruct (getTextContent page) as [tc|e] eqn:Htc; [|by eexists].
  cbn [bind_promise].
  apply (IH (S i) k); [|done].
  destruct (decide (k = i)) as [->|]; [|lia].
  destruct Hbad as [[e He] | (page' & e & Hpage' & He)]; [congruence|].
  rewrite Hpage in Hpage'. injection Hpage' as <-. congruence.
Qed.

(** The only error [extractTextFromPdf] ever raises is its own, whatever
    went wrong underneath: the upload handler then shows exactly that
    message with status [ERROR] and keeps the input text.  A document that
    cannot be opened is one such failure. *)
Theorem extractTextFromPdf_error_is_fixed w file s :
  (forall e,
     extractTextFromPdf w file = Rejected e ->
     e = Error "Failed to extract text from PDF. Please try copying the text manually."
     /\ settled w (AwaitPdfText file) s
        = setStatus ERROR
            (setErrorMsg
               (Some (lit "Failed to extract text from PDF. Please try copying the text manually."))
               s)
     /\ inputText (settled w (AwaitPdfText file) s) = inputText s)
  /\ (forall e,
        loadPdf w file = Rejected e ->
        extractTextFromPdf w file
        = Rejected (Error "Failed to extract text from PDF. Please try copying the text manually.")).
Proof.
  split.
  - intros e He.
    assert (Hfixed : e = Error "Failed to extract text from PDF. Please try copying the text manually.").
    { unfold extractTextFromPdf, catch_rethrow in He.
      destruct (bind_promise _ _); [done|]. by injection He as <-. }
    subst e. cbn [settled]. rewrite He. done.
  - intros e He. unfold extractTextFromPdf. by rewrite He.
Qed.

Lemma extractTextFromPdf_error_is_fixed_witness :
  extractTextFromPdf
    (world_with_loadPdf sample_world (fun _ => Rejected (Error "Invalid PDF structure")))
    pdf_file
  = Rejected (Error "Failed to extract text from PDF. Please try copying the text manually.").
Proof.
  apply (extractTextFromPdf_error_is_fixed
           (world_with_loadPdf sample_world
              (fun _ => Rejected (Error "Invalid PDF structure")))
           pdf_file initial_state)
    with (e := Error "Invalid PDF structure").
  reflexivity.
Defined.

(** One page that cannot be read, among the pages the loop visits, fails
    the whole extraction: no text of the other pages is returned. *)
Theorem unreadable_page_fails_extraction w file pdf k :
  loadPdf w file = Resolved pdf ->
  1 <= k <= Nat.min (pdf_numPages pdf) 15 ->
  page_unreadable pdf k ->
  extractTextFromPdf w file
  = Rejected (Error "Failed to extract text from PDF. Please try copying the text manually.").
Proof.
  intros Hload Hk Hbad. unfold extractTextFromPdf. rewrite Hload.
  cbn [bind_promise].
  destruct (extract_loop_unreadable pdf (Nat.min (pdf_numPages pdf) 15)
              1 k [] ltac:(lia) Hbad) as [e ->].
  reflexivity.
Qed.

Lemma unreadable_page_fails_extraction_witness :
  extractTextFromPdf (world_with_loadPdf sample_world (fun _ => Resolved damaged_pdf))
    pdf_file
  = Rejected (Error "Failed to extract text from PDF. Please try copying the text manually.").
Proof.
  apply (unreadable_page_fails_extraction
           (world_with_loadPdf sample_world (fun _ => Resolved damaged_pdf))
           pdf_file damaged_pdf 7).
  - reflexivity.
  - simpl. lia.
  - left. eexists. reflexivity.
Defined.

Lemma pages_text_empty_length first count :
  length (pages_text (fun _ => mkTextContent []) first count) = 2 * count.
Proof.
  unfold pages_text. revert first.
  induction count as [|n IH]; intros first; [done|].
  cbn [seq map concat]. rewrite length_app, IH. simpl. lia.
Qed.

(** A PDF whose pages carry no text items (a scan) is extracted to nothing
    but the blank lines, two characters for each page read and so 30 at
    most; the upload handler rejects it as empty or unreadable however many
    pages it has, and keeps the input text. *)
Theorem pdf_without_text_rejected w file pdf s :
  loadPdf w file = Resolved pdf ->
  (forall j, 1 <= j <= Nat.min (pdf_numPages pdf) 15 ->
             page_content pdf j (mkTextContent [])) ->
  (exists text,
     extractTextFromPdf w file = Resolved text
     /\ length text = 2 * Nat.min (pdf_numPages pdf) 15)
  /\ settled w (AwaitPdfText file) s
     = setStatus ERROR
         (setErrorMsg
            (Some (lit "The document appears to be empty or unreadable.")) s)
  /\ inputText (settled w (AwaitPdfText file) s) = inputText s.
Proof.
  intros Hload Hpages.
  pose proof (extractTextFromPdf_pages w file pdf (fun _ => mkTextContent [])
                Hload Hpages) as Hext.
  pose proof (pages_text_empty_length 1 (Nat.min (pdf_numPages pdf) 15)) as Hlen.
  split_and!.
  - eexists. split; [exact Hext | exact Hlen].
  - cbn [settled]. rewrite Hext. unfold handleFileUpload_settled.
    destruct (Nat.ltb_spec
                (length (pages_text (fun _ => mkTextContent []) 1
                           (Nat.min (pdf_numPages pdf) 15))) 50); [done|lia].
  - cbn [settled]. rewrite Hext. unfold handleFileUpload_settled.
    destruct (Nat.ltb_spec
                (length (pages_text (fun _ => mkTextContent []) 1
                           (Nat.min (pdf_numPages pdf) 15))) 50); [done|lia].
Qed.

Lemma pdf_without_text_rejected_witness :
  status (settled (world_with_loadPdf sample_world (fun _ => Resolved scanned_pdf))
            (AwaitPdfText pdf_file) initial_state)
  = ERROR.
Proof.
  destruct (pdf_without_text_rejected
              (world_with_loadPdf sample_world (fun _ => Resolved scanned_pdf))
              pdf_file scanned_pdf initial_state eq_refl) as (_ & -> & _).
  - intros j _. eexists. split; reflexivity.
  - reflexivity.
Defined.

(** Ingestion of a PDF: the handler waits for the extraction with status
    [PARSING_PDF]; when the pages read give at least 50 characters (blank
    lines included) that text replaces the input text, the status returns
    to [IDLE] and the text tab is shown. *)
Theorem pdf_ingestion w s s' file pdf contents :
  file_type file = lit "application/pdf" ->
  loadPdf w file = Resolved pdf ->
  (forall j, 1 <= j <= Nat.min (pdf_numPages pdf) 15 ->
             page_content pdf j (contents j)) ->
  50 <= length (pages_text contents 1 (Nat.min (pdf_numPages pdf) 15)) ->
  handleFileUpload s (Some file)
  = (setErrorMsg None (setStatus PARSING_PDF s), Some (AwaitPdfText file))
  /\ settled w (AwaitPdfText file) s'
     = setActiveTab tab_text
         (setStatus IDLE
            (setInputText
               (pages_text contents 1 (Nat.min (pdf_numPages pdf) 15)) s')).
Proof.
  intros Htype Hload Hpages Hlong. split.
  - unfold handleFileUpload, is_pdf. rewrite Htype. reflexivity.
  - cbn [settled].
    rewrite (extractTextFromPdf_pages w file pdf contents Hload Hpages).
    unfold handleFileUpload_settled.
    by destruct (Nat.ltb_spec (length (pages_text contents 1
                   (Nat.min (pdf_numPages pdf) 15))) 50); [lia|].
Qed.

Lemma pdf_ingestion_witness :
  inputText (settled sample_world (AwaitPdfText pdf_file) initial_state)
  = pages_text sample_contents 1 15.
Proof.
  destruct (pdf_ingestion sample_world initial_state initial_state pdf_file
              sample_pdf sample_contents eq_refl eq_refl) as [_ ->].
  - intros j _. eexists. split; reflexivity.
  - vm_compute. lia.
  - reflexivity.
Defined.

(** ** The generator: credentials, answers and failures *)

(** The message a failed generation leaves is never empty: the error's own
    message if it has one, the fallback otherwise. *)
Lemma or_else_truthy a b : falsy b = false -> falsy (or_else a b) = false.
Proof.
  intros Hb. unfold or_else. destruct a as [m|]; [|done].
  by destruct (falsy m) eqn:Hm.
Qed.

(** Without an API key (unset or empty) the generator fails before it
    builds a request, whatever the text, the configuration and the service:
    Generate then ends in status [ERROR] with the missing-key message and
    the presentation cell as it was. *)
Theorem missing_api_key_fails_generation w text c s :
  falsy_opt (API_KEY w) = true ->
  generatePresentationContent w text c
  = Rejected (Error "API Key is missing. Please check your environment configuration.")
  /\ settled w (AwaitGenerate text c) s
     = setStatus ERROR
         (setErrorMsg
            (Some (lit "API Key is missing. Please check your environment configuration."))
            s)
  /\ presentationData (settled w (AwaitGenerate text c) s) = presentationData s.
Proof.
  intros Hkey.
  assert (Hgen : generatePresentationContent w text c
                 = Rejected (Error "API Key is missing. Please check your environment configuration.")).
  { unfold generatePresentationContent, initGenAI. by rewrite Hkey. }
  cbn [settled]. rewrite Hgen. done.
Qed.

Lemma missing_api_key_fails_generation_witness :
  status (settled (world_with_API_KEY sample_world (Some []))
            (AwaitGenerate sample_text initial_config) initial_state)
  = ERROR.
Proof.
  destruct (missing_api_key_fails_generation
              (world_with_API_KEY sample_world (Some []))
              sample_text initial_config initial_state eq_refl) as (_ & -> & _).
  reflexivity.
Defined.

(** With a key, an answer whose text is missing or empty is a failure with
    the message "No content generated"; the parser is not consulted. *)
Theorem empty_response_fails_generation w text c response s :
  falsy_opt (API_KEY w) = false ->
  generateContent w (build_prompt text c) = Resolved response ->
  falsy_opt (response_text response) = true ->
  generatePresentationContent w text c = Rejected (Error "No content generated")
  /\ settled w (AwaitGenerate text c) s
     = setStatus ERROR (setErrorMsg (Some (lit "No content generated")) s).
Proof.
  intros Hkey Hresp Hempty.
  assert (Hgen : generatePresentationContent w text c
                 = Rejected (Error "No content generated")).
  { unfold generatePresentationContent, initGenAI. rewrite Hkey.
    cbn [bind_promise]. rewrite Hresp. cbn [bind_promise].
    destruct (response_text response) as [json|]; [|done].
    simpl in Hempty. by rewrite Hempty. }
  cbn [settled]. rewrite Hgen. done.
Qed.

Lemma empty_response_fails_generation_witness :
  generatePresentationContent
    (world_with_generateContent sample_world (fun _ => Resolved (mkResponse None)))
    sample_text initial_config
  = Rejected (Error "No content generated").
Proof.
  apply (empty_response_fails_generation
           (world_with_generateContent sample_world
              (fun _ => Resolved (mkResponse None)))
           sample_text initial_config (mkResponse None) initial_state);
    reflexivity.
Defined.

(** With a key and a non-empty answer that parses, the generator returns
    the parsed title, subtitle and slides as they are: the slides are the
    service's, however many the configuration asked for. *)
Theorem generator_returns_parsed_answer w text c response json result :
  falsy_opt (API_KEY w) = false ->
  generateContent w (build_prompt text c) = Resolved response ->
  response_text response = Some json ->
  falsy json = false ->
  JSON_parse w json = Resolved result ->
  generatePresentationContent w text c
  = Resolved {| pd_title := result_title result;
                pd_subtitle := result_subtitle result;
                pd_slides := result_slides result;
                pd_template := None;
                pd_titleImage := None |}
  /\ (forall n,
        generateContent w (build_prompt text (config_with_numSlides c n))
        = Resolved response ->
        exists data,
          generatePresentationContent w text (config_with_numSlides c n)
          = Resolved data
          /\ pd_slides data = result_slides result).
Proof.
  intros Hkey Hresp Htext Hjson Hparse.
  assert (Hgen : forall c',
             generateContent w (build_prompt text c') = Resolved response ->
             generatePresentationContent w text c'
             = Resolved {| pd_title := result_title result;
                           pd_subtitle := result_subtitle result;
                           pd_slides := result_slides result;
                           pd_template := None;
                           pd_titleImage := None |}).
  { intros c' Hresp'. unfold generatePresentationContent, initGenAI.
    rewrite Hkey. cbn [bind_promise]. rewrite Hresp'. cbn [bind_promise].
    rewrite Htext, Hjson, Hparse. reflexivity. }
  split; [by apply Hgen|].
  intros n Hn. eexists. split; [by apply Hgen|reflexivity].
Qed.

Lemma generator_returns_parsed_answer_witness :
  generatePresentationContent sample_world sample_text initial_config
  = Resolved sample_data.
Proof.
  apply (generator_returns_parsed_answer sample_world sample_text initial_config
           (mkResponse (Some (lit "{json}"))) (lit "{json}") sample_result);
    reflexivity.
Defined.

(** An error of the service, or of the parser on its answer, comes out of
    the generator unchanged; Generate then ends in status [ERROR] showing
    the error's message, or "AI Generation failed. Please try again." when
    it has none, never an empty one, the presentation cell being as it
    was. *)
Theorem generation_failure_reported w text c e s :
  falsy_opt (API_KEY w) = false ->
  (generateContent w (build_prompt text c) = Rejected e
   \/ exists response json,
        generateContent w (build_prompt text c) = Resolved response
        /\ response_text response = Some json
        /\ falsy json = false
        /\ JSON_parse w json = Rejected e) ->
  generatePresentationContent w text c = Rejected e
  /\ status (settled w (AwaitGenerate text c) s) = ERROR
  /\ errorMsg (settled w (AwaitGenerate text c) s)
     = Some (or_else (message e) (lit "AI Generation failed. Please try again."))
  /\ falsy (or_else (message e) (lit "AI Generation failed. Please try again."))
     = false
  /\ (falsy_opt (message e) = true ->
      errorMsg (settled w (AwaitGenerate text c) s)
      = Some (lit "AI Generation failed. Please try again."))
  /\ presentationData (settled w (AwaitGenerate text c) s) = presentationData s.
Proof.
  intros Hkey Hfail.
  assert (Hgen : generatePresentationContent w text c = Rejected e).
  { unfold generatePresentationContent, initGenAI. rewrite Hkey.
    cbn [bind_promise].
    destruct Hfail as [-> | (response & json & -> & Htext & Hjson & Hparse)];
      [done|].
    cbn [bind_promise]. by rewrite Htext, Hjson, Hparse. }
  cbn [settled]. rewrite Hgen. split_and!; try done.
  - by apply or_else_truthy.
  - intros Hnone. simpl. unfold or_else.
    destruct (message e) as [m|]; [|done]. simpl in Hnone. by rewrite Hnone.
Qed.

Lemma generation_failure_reported_witness :
  errorMsg
    (settled (world_with_generateContent sample_world (fun _ => Rejected bare_error))
       (AwaitGenerate sample_text initial_config) initial_state)
  = Some (lit "AI Generation failed. Please try again.").
Proof.
  destruct (generation_failure_reported
              (world_with_generateContent sample_world (fun _ => Rejected bare_error))
              sample_text initial_config bare_error initial_state eq_refl)
    as (_ & _ & _ & _ & Hdefault & _).
  - left. reflexivity.
  - apply Hdefault. reflexivity.
Defined.

Lemma take_take_same {A} (n : nat) (l : list A) : take n (take n l) = take n l.
Proof. rewrite take_take. f_equal. lia. Qed.

(** The text enters the prompt through its first 30000 code units, and
    through them exactly: the prompt is a frame that depends on the
    configuration alone, with [text.substring(0, 30000)] in it, so two
    texts give the same prompt if and only if they agree on their first
    30000 code units, and the prompt is as long as the frame plus the
    smaller of 30000 and the length of the text.  That prompt is what the
    service is asked: texts that agree on the first 30000 code units get
    the same answer, and an error of the service on this prompt is the
    generator's. *)
Theorem generator_reads_first_30000 w text text' c :
  (exists before after,
     forall t, build_prompt t c = before ++ substring0 30000 t ++ after)
  /\ (build_prompt text c = build_prompt text' c
      <-> substring0 30000 text = substring0 30000 text')
  /\ (substring0 30000 text = substring0 30000 text' ->
      generatePresentationContent w text c = generatePresentationContent w text' c)
  /\ length (build_prompt text c)
     = length (build_prompt [] c) + Nat.min (N.to_nat 30000) (length text)
  /\ (forall e,
        falsy_opt (API_KEY w) = false ->
        generateContent w (build_prompt text c) = Rejected e ->
        generatePresentationContent w text c = Rejected e).
Proof.
  assert (Hframe : exists before after,
             forall t, build_prompt t c = before ++ substring0 30000 t ++ after).
  { eexists _, _. intros t. unfold build_prompt.
    rewrite !(app_assoc _ _ (substring0 30000 t ++ _)). reflexivity. }
  assert (Hiff : build_prompt text c = build_prompt text' c
                 <-> substring0 30000 text = substring0 30000 text').
  { destruct Hframe as (before & after & Hframe). rewrite !Hframe. split.
    - intros Heq. apply app_inv_head in Heq. by apply app_inv_tail in Heq.
    - by intros ->. }
  split_and!.
  - exact Hframe.
  - exact Hiff.
  - intros Hsame. apply Hiff in Hsame.
    unfold generatePresentationContent. by rewrite Hsame.
  - destruct Hframe as (before & after & Hframe). rewrite !Hframe.
    unfold substring0. rewrite !length_app, take_nil, !length_take.
    cbn [length]. lia.
  - intros e Hkey Hfail. unfold generatePresentationContent, initGenAI.
    rewrite Hkey. cbn [bind_promise]. by rewrite Hfail.
Qed.

Lemma generator_reads_first_30000_witness :
  generatePresentationContent sample_world
    (replicate (N.to_nat 30000) 97%N ++ sample_text) initial_config
  = generatePresentationContent sample_world
      (replicate (N.to_nat 30000) 97%N) initial_config.
Proof.
  apply (generator_reads_first_30000 sample_world
           (replicate (N.to_nat 30000) 97%N ++ sample_text)
           (replicate (N.to_nat 30000) 97%N) initial_config).
  unfold substring0.
  rewrite take_app_length' by (symmetry; apply length_replicate).
  rewrite take_ge by (rewrite length_replicate; reflexivity).
  reflexivity.
Defined.

(** ** Handlers that overlap *)

Lemma dispatch_enabled sys e :
  enabled (app sys) e = true ->
  dispatch sys e
  = mkSys (fst (handler (app sys) e))
      (in_flight sys ++ option_list (snd (handler (app sys) e))).
Proof. intros He. unfold dispatch. rewrite He. by destruct (handler _ _). Qed.

Lemma settle_at w s l p l' :
  step w (mkSys s (l ++ p :: l')) (Settle (length l))
  = mkSys (settled w p s) (l ++ l').
Proof.
  cbn [step in_flight app].
  rewrite list_lookup_middle by done. by rewrite delete_middle.
Qed.

Lemma dispatch_generate s l :
  config_panel s = true ->
  status s <> GENERATING_CONTENT ->
  ~ blank (inputText s) ->
  dispatch (mkSys s l) ClickGenerate
  = mkSys (setErrorMsg None (setStatus GENERATING_CONTENT s))
      (l ++ [AwaitGenerate (inputText s) (config s)]).
Proof.
  intros Hpanel Hstatus Hblank.
  rewrite dispatch_enabled.
  - cbn [handler app in_flight]. by rewrite handleGenerate_starts.
  - cbn [enabled app]. rewrite Hpanel.
    destruct (status_is GENERATING_CONTENT s) eqn:Hs; [|done].
    by apply status_is_true in Hs.
Qed.

(** Generate is held back in status [GENERATING_CONTENT] only: with text
    that is not blank it starts a call of the generator in every other
    status, while a document is still being parsed and after an error
    alike. *)
Theorem generate_enabled_outside_generating s l :
  config_panel s = true ->
  status s <> GENERATING_CONTENT ->
  ~ blank (inputText s) ->
  dispatch (mkSys s l) ClickGenerate
  = mkSys (setErrorMsg None (setStatus GENERATING_CONTENT s))
      (l ++ [AwaitGenerate (inputText s) (config s)])
  /\ generations_in_flight (dispatch (mkSys s l) ClickGenerate)
     = S (generations_in_flight (mkSys s l)).
Proof.
  intros Hpanel Hstatus Hblank.
  rewrite dispatch_generate by done. split; [done|].
  unfold generations_in_flight. cbn [in_flight].
  rewrite filter_app, length_app. simpl. lia.
Qed.

Lemma generate_enabled_outside_generating_witness :
  generations_in_flight
    (dispatch
       (mkSys (setStatus PARSING_PDF (setInputText sample_text initial_state))
          [AwaitPdfText pdf_file])
       ClickGenerate)
  = 1.
Proof.
  apply (generate_enabled_outside_generating
           (setStatus PARSING_PDF (setInputText sample_text initial_state))
           [AwaitPdfText pdf_file]).
  - reflexivity.
  - discriminate.
  - intros Hblank. inversion Hblank as [|c r Hc _]. vm_compute in Hc. discriminate.
Defined.

(** A template chosen while the generator is running does not reach the
    deck: the presentation gets the template (and title image) the click on
    Generate saw, while the configuration keeps the new choice. *)
Theorem template_chosen_while_generating_not_applied w s l t' data :
  config_panel s = true ->
  status s <> GENERATING_CONTENT ->
  ~ blank (inputText s) ->
  generatePresentationContent w (inputText s) (config s) = Resolved data ->
  presentationData
    (app (run w (mkSys s l)
            [User ClickGenerate; User (ClickTemplate t'); Settle (length l)]))
  = Some (merge_visuals data (config s))
  /\ template
       (config
          (app (run w (mkSys s l)
                  [User ClickGenerate; User (ClickTemplate t'); Settle (length l)])))
     = t'
  /\ in_flight
       (run w (mkSys s l)
          [User ClickGenerate; User (ClickTemplate t'); Settle (length l)])
     = l.
Proof.
  intros Hpanel Hstatus Hblank Hgen.
  unfold run. cbn [foldl]. cbn [step].
  rewrite dispatch_generate by done.
  rewrite dispatch_enabled by exact Hpanel.
  cbn [handler fst snd option_list app in_flight].
  rewrite app_nil_r.
  rewrite list_lookup_middle by done. rewrite delete_middle, app_nil_r.
  cbn [settled app in_flight]. rewrite Hgen. done.
Qed.

Lemma template_chosen_while_generating_not_applied_witness :
  presentationData
    (app (run sample_world (mkSys sample_ready [])
            [User ClickGenerate; User (ClickTemplate dark); Settle 0]))
  = Some (merge_visuals sample_data (config sample_ready)).
Proof.
  apply (template_chosen_while_generating_not_applied sample_world sample_ready
           [] dark sample_data).
  - reflexivity.
  - discriminate.
  - intros Hblank. inversion Hblank as [|c r Hc _]. vm_compute in Hc. discriminate.
  - reflexivity.
Defined.

(** Reset does not cancel a generation: when the answer of a call still in
    flight arrives after the reset, the deck is shown all the same, with
    status [SUCCESS] and the input text the reset left empty. *)
Theorem generation_in_flight_survives_reset w sys k text c data :
  in_flight sys !! k = Some (AwaitGenerate text c) ->
  generatePresentationContent w text c = Resolved data ->
  presentationData (app (step w (step w sys (User ClickLogo)) (Settle k)))
  = Some (merge_visuals data c)
  /\ status (app (step w (step w sys (User ClickLogo)) (Settle k))) = SUCCESS
  /\ inputText (app (step w (step w sys (User ClickLogo)) (Settle k))) = []
  /\ input_section (app (step w (step w sys (User ClickLogo)) (Settle k))) = false.
Proof.
  intros Hk Hgen. cbn [step].
  rewrite dispatch_enabled by done.
  cbn [handler fst snd option_list app in_flight]. rewrite app_nil_r, Hk.
  cbn [settled app]. rewrite Hgen. done.
Qed.

Lemma generation_in_flight_survives_reset_witness :
  status
    (app (step sample_world
            (step sample_world (run sample_world initial_sys generating_trace)
               (User ClickLogo))
            (Settle 0)))
  = SUCCESS.
Proof.
  apply (generation_in_flight_survives_reset sample_world
           (run sample_world initial_sys generating_trace) 0
           sample_text initial_config sample_data);
    reflexivity.
Defined.

(** ** Slide images: frame, bounds and overlapping uploads *)

Lemma array_get_set_ne (arr : SlideArray) i j x :
  i < length arr -> i <> j -> array_get (array_set arr i x) j = array_get arr j.
Proof.
  intros Hi Hne. rewrite array_set_in_range by done.
  unfold array_get. by rewrite list_lookup_insert_ne.
Qed.

(** Setting or clearing the image of slide [i], an index inside the slides,
    touches nothing else: the other slides, the number of slides, the
    title, bullet points and speaker notes of slide [i], and the title,
    subtitle, template and title image of the presentation are as before. *)
Theorem update_slide_image_frame p i v sl :
  i < length (pd_slides p) ->
  array_get (pd_slides p) i = Some sl ->
  (forall j, j <> i ->
     array_get (pd_slides (update_slide_image p i v)) j
     = array_get (pd_slides p) j)
  /\ length (pd_slides (update_slide_image p i v)) = length (pd_slides p)
  /\ array_get (pd_slides (update_slide_image p i v)) i
     = Some (mkSlide (slide_title sl) (slide_bulletPoints sl)
               (slide_speakerNotes sl) v)
  /\ pd_title (update_slide_image p i v) = pd_title p
  /\ pd_subtitle (update_slide_image p i v) = pd_subtitle p
  /\ pd_template (update_slide_image p i v) = pd_template p
  /\ pd_titleImage (update_slide_image p i v) = pd_titleImage p.
Proof.
  intros Hi Hget. split_and!; try done.
  - intros j Hj. unfold update_slide_image. simpl.
    by apply array_get_set_ne.
  - by apply update_slide_image_length.
  - rewrite update_slide_image_read by done. by rewrite Hget.
Qed.

Lemma update_slide_image_frame_witness :
  array_get
    (pd_slides
       (update_slide_image (merge_visuals sample_data (config sample_ready)) 1
          (Some (lit "data:image/png;base64,AAAA"))))
    0
  = Some (sample_slide "Introduction").
Proof.
  destruct (update_slide_image_frame
              (merge_visuals sample_data (config sample_ready)) 1
              (Some (lit "data:image/png;base64,AAAA"))
              (sample_slide "Results")) as (Hother & _).
  - simpl. lia.
  - reflexivity.
  - rewrite Hother by lia. reflexivity.
Defined.

(** Past the end the write grows the array, as a JavaScript array does:
    the slides become [index + 1] many, the old ones are kept, the gap is
    holes, and the last element is an object with nothing but the image. *)
Theorem update_slide_image_past_end p index v :
  length (pd_slides p) <= index ->
  length (pd_slides (update_slide_image p index v)) = S index
  /\ (forall j, j < length (pd_slides p) ->
        pd_slides (update_slide_image p index v) !! j = pd_slides p !! j)
  /\ (forall j, length (pd_slides p) <= j < index ->
        pd_slides (update_slide_image p index v) !! j = Some None)
  /\ pd_slides (update_slide_image p index v) !! index
     = Some (Some (mkSlide None None None v)).
Proof.
  intros Hout.
  assert (Hnone : array_get (pd_slides p) index = None).
  { unfold array_get. by rewrite lookup_ge_None_2. }
  unfold update_slide_image. cbn [pd_slides presentation_with_slides].
  rewrite Hnone. unfold array_set.
  destruct (Nat.ltb_spec index (length (pd_slides p))); [lia|].
  split_and!.
  - rewrite !length_app, length_replicate. simpl. lia.
  - intros j Hj. by rewrite lookup_app_l.
  - intros j Hj. rewrite lookup_app_r by lia.
    rewrite lookup_app_l by (rewrite length_replicate; lia).
    apply lookup_replicate_2. lia.
  - rewrite lookup_app_r by lia.
    rewrite lookup_app_r by (rewrite length_replicate; lia).
    rewrite length_replicate.
    by replace (index - length (pd_slides p) - (index - length (pd_slides p)))
      with 0 by lia.
Qed.

Lemma update_slide_image_past_end_witness :
  length
    (pd_slides
       (update_slide_image (merge_visuals sample_data (config sample_ready)) 4 None))
  = 5.
Proof.
  apply (update_slide_image_past_end
           (merge_visuals sample_data (config sample_ready)) 4 None).
  simpl. lia.
Defined.




(** ** Invariants of the running application *)

(** A general scheme: a property of the promises in flight that every
    handler establishes for the promise it starts holds in every reachable
    state. *)
Lemma reachable_Forall_in_flight w (P : Pending -> Prop) :
  (forall s e p, enabled s e = true -> snd (handler s e) = Some p -> P p) ->
  forall sys, reachable w sys -> Forall P (in_flight sys).
Proof.
  intros Hstart sys Hreach.
  induction Hreach as [|sys a _ IH]; [constructor|].
  destruct a as [e|k]; cbn [step].
  - unfold dispatch. destruct (enabled (app sys) e) eqn:He; [|done].
    specialize (Hstart (app sys) e).
    destruct (handler (app sys) e) as [s' [p|]]; cbn [in_flight option_list].
    + apply Forall_app. split; [done|]. repeat constructor. by apply Hstart.
    + by rewrite app_nil_r.
  - destruct (in_flight sys !! k); [|done]. by apply Forall_delete.
Qed.

(** The slide cards are the only source of slide indices: in every
    reachable state a slide-image upload in flight holds an index inside
    the slides it closed over.  When its file has been read, the deck put
    on the page is that closed-over deck with the image set, whatever deck
    was on the page before, and it has as many slides as the closed-over
    one.  A remove button exists only for an index inside the slides on the
    page, and the click leaves their number unchanged. *)
Theorem slide_writes_stay_in_range w sys k file p index :
  reachable w sys ->
  in_flight sys !! k = Some (AwaitSlideBase64 file p index) ->
  index < length (pd_slides p)
  /\ (forall base64,
        readAsDataURL w file = Resolved base64 ->
        presentationData (app (step w sys (Settle k)))
        = Some (update_slide_image p index (Some base64))
        /\ length (pd_slides (update_slide_image p index (Some base64)))
           = length (pd_slides p))
  /\ (forall i,
        enabled (app sys) (ClickRemoveSlideImage i) = true ->
        exists q,
          presentationData (app sys) = Some q
          /\ i < length (pd_slides q)
          /\ presentationData (app (dispatch sys (ClickRemoveSlideImage i)))
             = Some (update_slide_image q i None)
          /\ length (pd_slides (update_slide_image q i None))
             = length (pd_slides q)).
Proof.
  intros Hreach Hk.
  assert (Hall : Forall pending_index_in_range (in_flight sys)).
  { apply (reachable_Forall_in_flight w); [|done].
    intros s e q He Hq.
    destruct e as [| t | [f|] | v | id | [f|] | | v | v | v | | | | i [f|] | i];
      simpl in Hq; try done.
    - unfold handleFileUpload in Hq.
      destruct (is_pdf f); [|destruct (is_plain_text f)];
        simpl in Hq; by simplify_eq.
    - by simplify_eq.
    - unfold handleGenerate in Hq. destruct (falsy _); simpl in Hq; by simplify_eq.
    - unfold handleDownload in Hq.
      destruct (presentationData s); simpl in Hq; by simplify_eq.
    - simpl in He. unfold slide_card in He. unfold handleUpdateSlideImage in Hq.
      destruct (presentationData s) as [pd|]; simpl in Hq; [|done].
      simplify_eq. simpl. by apply Nat.ltb_lt.
    - unfold handleUpdateSlideImage in Hq.
      destruct (presentationData s); simpl in Hq; done. }
  pose proof (Forall_lookup_1 _ _ _ _ Hall Hk) as Hin. simpl in Hin.
  split_and!; [done| |].
  - intros base64 Hread. split; [|by apply update_slide_image_length].
    cbn [step]. rewrite Hk. cbn [app settled]. by rewrite Hread.
  - intros i He. rewrite dispatch_enabled by done.
    cbn [handler app fst]. unfold handleUpdateSlideImage.
    simpl in He. unfold slide_has_image in He.
    destruct (presentationData (app sys)) as [q|]; [|done].
    assert (Hi : i < length (pd_slides q)).
    { unfold array_get in He.
      destruct (pd_slides q !! i) eqn:Hi; [|done].
      by apply lookup_lt_Some in Hi. }
    exists q. split_and!; try done. by apply update_slide_image_length.
Qed.

Lemma slide_writes_stay_in_range_witness :
  1 < length (pd_slides (merge_visuals sample_data initial_config)).
Proof.
  apply (slide_writes_stay_in_range sample_world
           (run sample_world initial_sys
              (generating_trace ++
               [Settle 0; User (ChangeSlideImageInput 1 (Some png_file))]))
           0 png_file (merge_visuals sample_data initial_config) 1).
  - apply run_reachable. constructor.
  - reflexivity.
Defined.

(** The slide count of the configuration is always one the page offers:
    in every reachable state the configuration, and every configuration a
    suspended handler closed over, asks for 5, 8 or 12 slides. *)
Theorem numSlides_always_offered w sys :
  reachable w sys ->
  numSlides (config (app sys)) ∈ numSlides_options
  /\ (forall k text c,
        in_flight sys !! k = Some (AwaitGenerate text c) ->
        numSlides c ∈ numSlides_options).
Proof.
  intros Hreach.
  assert (Hinv : all_numSlides_offered sys).
  { induction Hreach as [|sys a _ [Hcfg Hflight]].
    - split; [|constructor]. apply list_elem_of_In. simpl. auto.
    - destruct a as [e|k]; cbn [step].
      + unfold dispatch. destruct (enabled (app sys) e) eqn:He; [|done].
        destruct sys as [s l]. cbn [app in_flight] in *.
        assert (Hsame : forall s',
                   numSlides (config s') = numSlides (config s) ->
                   all_numSlides_offered (mkSys s' (l ++ []))).
        { intros s' Hs'. split; cbn [app in_flight].
          - unfold numSlides_offered. by rewrite Hs'.
          - by rewrite app_nil_r. }
        assert (Hstart : forall s' p,
                   config s' = config s ->
                   pending_numSlides_offered p ->
                   all_numSlides_offered (mkSys s' (l ++ [p]))).
        { intros s' p Hs' Hp. split; cbn [app in_flight].
          - by rewrite Hs'.
          - apply Forall_app. split; [done|]. by repeat constructor. }
        destruct e as [| t | [f|] | v | id | [f|] | | v | v | v | | | | i [f|] | i];
          cbn [handler];
          unfold handleFileUpload, handleTitleImageUpload, handleGenerate,
            handleDownload, handleUpdateSlideImage;
          repeat match goal with
                 | |- context [is_pdf ?f] => destruct (is_pdf f)
                 | |- context [is_plain_text ?f] => destruct (is_plain_text f)
                 | |- context [falsy ?t] => destruct (falsy t)
                 | |- context [presentationData s] =>
                     destruct (presentationData s)
                 end;
          cbn [option_list];
          first [ by apply Hsame
                | by apply Hstart
                | simpl in He; apply andb_prop in He as [_ Hv];
                  apply bool_decide_eq_true in Hv;
                  split; cbn [app in_flight]; [done | by rewrite app_nil_r] ].
      + destruct (in_flight sys !! k) as [p|] eqn:Hk; [|done].
        pose proof (Forall_lookup_1 _ _ _ _ Hflight Hk) as Hp.
        split; cbn [app in_flight]; [|by apply Forall_delete].
        destruct p as [file | file | file c | text c | file pd index | pd];
          cbn [settled].
        * unfold handleFileUpload_settled, handleFileUpload_catch.
          destruct (extractTextFromPdf w file); [destruct (_ <? _)|]; done.
        * unfold handleFileUpload_settled, handleFileUpload_catch.
          destruct (file_text w file); [destruct (_ <? _)|]; done.
        * unfold handleTitleImageUpload_settled.
          destruct (readAsDataURL w file); done.
        * unfold handleGenerate_settled.
          destruct (generatePresentationContent w text c); done.
        * unfold handleUpdateSlideImage_settled.
          destruct (readAsDataURL w file); done.
        * unfold handleDownload_settled.
          destruct (generatePptFile w pd); done. }
  destruct Hinv as [Hcfg Hflight]. split; [done|].
  intros k text c Hk. exact (Forall_lookup_1 _ _ _ _ Hflight Hk).
Qed.

Lemma numSlides_always_offered_witness :
  numSlides (config (app (run sample_world initial_sys
                           [User (ClickTab tab_text);
                            User (ChangeTextarea sample_text);
                            User (ChangeNumSlides 7);
                            User (ChangeNumSlides 12)])))
  ∈ numSlides_options.
Proof.
  apply (numSlides_always_offered sample_world).
  apply run_reachable. constructor.
Defined.

Lemma Exists_delete_other (kind : Pending -> bool) l k p :
  l !! k = Some p ->
  kind p = false ->
  Exists (fun q => kind q = true) l ->
  Exists (fun q => kind q = true) (delete k l).
Proof.
  intros Hk Hp Hex. apply Exists_exists in Hex as (q & Hq & Hkind).
  apply list_elem_of_lookup in Hq as [i Hi].
  apply Exists_exists. exists q. split; [|done].
  destruct (decide (i = k)) as [->|Hne]; [congruence|].
  apply list_elem_of_lookup.
  destruct (decide (i < k)).
  - exists i. by rewrite list_lookup_delete_lt.
  - exists (pred i). rewrite list_lookup_delete_ge by lia.
    by replace (S (pred i)) with i by lia.
Qed.

(** A busy status is never left behind: in every reachable state, status
    [PARSING_PDF] comes with a file read in flight, [GENERATING_CONTENT]
    with a call of the generator in flight and [GENERATING_PPT] with an
    export in flight, whose completion will replace the status. *)
Theorem busy_status_has_operation_in_flight w sys :
  reachable w sys ->
  (status (app sys) = PARSING_PDF -> some_in_flight is_upload sys)
  /\ (status (app sys) = GENERATING_CONTENT -> some_in_flight is_generation sys)
  /\ (status (app sys) = GENERATING_PPT -> some_in_flight is_export sys).
Proof.
  intros Hreach. change (busy_status_backed sys).
  induction Hreach as [|sys a _ IH].
  - by split_and!.
  - destruct a as [e|k]; cbn [step].
    + unfold dispatch. destruct (enabled (app sys) e) eqn:He; [|done].
      destruct sys as [s l]. cbn [app in_flight] in *.
      assert (Hsame : forall s' r,
                 status s' = status s ->
                 busy_status_backed (mkSys s' (l ++ r))).
      { intros s' r Hs'. unfold busy_status_backed, some_in_flight in *.
        cbn [app in_flight] in *. rewrite Hs'.
        destruct IH as (H1 & H2 & H3).
        split_and!; intros Hst; apply Exists_app; left; auto. }
      assert (Hidle : forall s' r,
                 status s' = IDLE \/ status s' = ERROR ->
                 busy_status_backed (mkSys s' (l ++ r))).
      { intros s' r Hs'. unfold busy_status_backed. cbn [app].
        split_and!; intros Hst; destruct Hs'; congruence. }
      assert (Hbusy : forall s' p,
                 (status s' = PARSING_PDF /\ is_upload p = true)
                 \/ (status s' = GENERATING_CONTENT /\ is_generation p = true)
                 \/ (status s' = GENERATING_PPT /\ is_export p = true) ->
                 busy_status_backed (mkSys s' (l ++ [p]))).
      { intros s' p Hs'. unfold busy_status_backed, some_in_flight.
        cbn [app in_flight].
        split_and!; intros Hst; apply Exists_app; right; constructor;
          destruct Hs' as [[? ?] | [[? ?] | [? ?]]]; congruence. }
      destruct e as [| t | [f|] | v | id | [f|] | | v | v | v | | | | i [f|] | i];
        cbn [handler];
        unfold handleFileUpload, handleTitleImageUpload, handleGenerate,
          handleDownload, handleUpdateSlideImage;
        repeat match goal with
               | |- context [is_pdf ?f] => destruct (is_pdf f)
               | |- context [is_plain_text ?f] => destruct (is_plain_text f)
               | |- context [falsy ?t] => destruct (falsy t)
               | |- context [presentationData s] =>
                   destruct (presentationData s)
               end;
        first [ by apply Hsame
              | apply Hidle; by auto
              | apply Hbusy; by auto 6 ].
    + destruct (in_flight sys !! k) as [p|] eqn:Hk; [|done].
      destruct IH as (H1 & H2 & H3).
      assert (Hdone : forall s',
                 status s' = IDLE \/ status s' = SUCCESS \/ status s' = ERROR ->
                 busy_status_backed (mkSys s' (delete k (in_flight sys)))).
      { intros s' Hs'. unfold busy_status_backed. cbn [app].
        split_and!; intros Hst; destruct Hs' as [|[|]]; congruence. }
      assert (Hkeep : forall s',
                 status s' = status (app sys) ->
                 is_upload p = false -> is_generation p = false ->
                 is_export p = false ->
                 busy_status_backed (mkSys s' (delete k (in_flight sys)))).
      { intros s' Hs' Hu Hg Hx. unfold busy_status_backed, some_in_flight in *.
        cbn [app in_flight]. rewrite Hs'.
        split_and!; intros Hst; eapply Exists_delete_other; eauto. }
      destruct p as [file | file | file c | text c | file pd index | pd];
        cbn [settled].
      * unfold handleFileUpload_settled, handleFileUpload_catch.
        destruct (extractTextFromPdf w file); [destruct (_ <? _)|];
          apply Hdone; simpl; auto.
      * unfold handleFileUpload_settled, handleFileUpload_catch.
        destruct (file_text w file); [destruct (_ <? _)|];
          apply Hdone; simpl; auto.
      * unfold handleTitleImageUpload_settled.
        destruct (readAsDataURL w file); by apply Hkeep.
      * unfold handleGenerate_settled.
        destruct (generatePresentationContent w text c);
          apply Hdone; simpl; auto.
      * unfold handleUpdateSlideImage_settled.
        destruct (readAsDataURL w file); by apply Hkeep.
      * unfold handleDownload_settled.
        destruct (generatePptFile w pd); apply Hdone; simpl; auto.
Qed.

Lemma busy_status_has_operation_in_flight_witness :
  some_in_flight is_generation (run sample_world initial_sys regenerate_trace).
Proof.
  apply (busy_status_has_operation_in_flight sample_world
           (run sample_world initial_sys regenerate_trace)).
  - apply run_reachable. constructor.
  - reflexivity.
Defined.

(** ** The title image *)

Lemma dispatch_title_image s l file :
  config_panel s = true ->
  falsy_opt (titleImage (config s)) = true ->
  dispatch (mkSys s l) (ChangeTitleImageInput (Some file))
  = mkSys s (l ++ [AwaitTitleBase64 file (config s)]).
Proof.
  intros Hpanel Hnone. rewrite dispatch_enabled; [done|].
  cbn [enabled app]. by rewrite Hpanel, Hnone.
Qed.

(** A cover image that has been read becomes the configuration's title
    image and with it the title image of the deck generated next; removing
    it clears that field and no other, so that a configuration that had no
    title image is back as it was.  A read that fails sets a message and
    nothing else: status and configuration stay. *)
Theorem title_image_upload_then_remove w s file :
  (forall base64,
     readAsDataURL w file = Resolved base64 ->
     titleImage (config (settled w (AwaitTitleBase64 file (config s)) s))
     = Some base64
     /\ (forall data,
           pd_titleImage
             (merge_visuals data
                (config (settled w (AwaitTitleBase64 file (config s)) s)))
           = Some base64)
     /\ config (removeTitleImage (settled w (AwaitTitleBase64 file (config s)) s))
        = config_with_titleImage (config s) None
     /\ (titleImage (config s) = None ->
         removeTitleImage (settled w (AwaitTitleBase64 file (config s)) s) = s))
  /\ (forall e,
        readAsDataURL w file = Rejected e ->
        settled w (AwaitTitleBase64 file (config s)) s
        = setErrorMsg (Some (lit "Failed to process image.")) s
        /\ status (settled w (AwaitTitleBase64 file (config s)) s) = status s
        /\ config (settled w (AwaitTitleBase64 file (config s)) s) = config s).
Proof.
  split.
  - intros base64 Hread. cbn [settled]. rewrite Hread. split_and!; try done.
    intros Hnone. destruct s as [st txt err pd [n d a t img] tab].
    simpl in *. by subst.
  - intros e Hfail. cbn [settled]. by rewrite Hfail.
Qed.

Lemma title_image_upload_then_remove_witness :
  removeTitleImage
    (settled sample_world (AwaitTitleBase64 png_file (config sample_ready))
       sample_ready)
  = sample_ready.
Proof.
  destruct (title_image_upload_then_remove sample_world sample_ready png_file)
    as [Hok _].
  destruct (Hok (lit "data:image/png;base64,AAAA") eq_refl) as (_ & _ & _ & Hback).
  apply Hback. reflexivity.
Defined.

(** Choices made while the cover image is being read are lost: the handler
    writes back the configuration it closed over, so a template picked in
    between is replaced by the one selected when the file was chosen. *)
Theorem template_chosen_during_image_read_lost w s l file base64 t' :
  config_panel s = true ->
  falsy_opt (titleImage (config s)) = true ->
  readAsDataURL w file = Resolved base64 ->
  config
    (app (run w (mkSys s l)
            [User (ChangeTitleImageInput (Some file)); User (ClickTemplate t');
             Settle (length l)]))
  = config_with_titleImage (config s) (Some base64)
  /\ template
       (config
          (app (run w (mkSys s l)
                  [User (ChangeTitleImageInput (Some file));
                   User (ClickTemplate t'); Settle (length l)])))
     = template (config s).
Proof.
  intros Hpanel Hnone Hread.
  unfold run. cbn [foldl].
  change (step w (mkSys s l) (User (ChangeTitleImageInput (Some file))))
    with (dispatch (mkSys s l) (ChangeTitleImageInput (Some file))).
  rewrite dispatch_title_image by done.
  change (step w ?sys (User (ClickTemplate t')))
    with (dispatch sys (ClickTemplate t')).
  rewrite dispatch_enabled by exact Hpanel.
  cbn [handler fst snd option_list app in_flight].
  rewrite app_nil_r, settle_at.
  cbn [settled app]. by rewrite Hread.
Qed.

Lemma template_chosen_during_image_read_lost_witness :
  template
    (config
       (app (run sample_world (mkSys sample_ready [])
               [User (ChangeTitleImageInput (Some png_file));
                User (ClickTemplate dark); Settle 0])))
  = modern.
Proof.
  apply (template_chosen_during_image_read_lost sample_world sample_ready []
           png_file (lit "data:image/png;base64,AAAA") dark);
    reflexivity.
Defined.

(** ** Failures on the results page *)

(** The error banner belongs to the input section.  With a presentation on
    the page a failed export therefore shows no message, only the status
    changes; a failed read of a slide image changes nothing at all; and the
    reset that leads back to the input section clears the message, so it is
    not shown afterwards either. *)
Theorem results_page_failures_not_displayed w s p :
  presentationData s = Some p ->
  error_banner s = false
  /\ (forall e,
        generatePptFile w p = Rejected e ->
        errorMsg (settled w (AwaitPpt p) s)
        = Some (lit "Failed to generate PPT file.")
        /\ error_banner (settled w (AwaitPpt p) s) = false
        /\ error_banner (resetApp (settled w (AwaitPpt p) s)) = false)
  /\ (forall file index e,
        readAsDataURL w file = Rejected e ->
        settled w (AwaitSlideBase64 file p index) s = s).
Proof.
  intros Hp. split_and!.
  - unfold error_banner, input_section. by rewrite Hp.
  - intros e Hfail. cbn [settled]. rewrite Hfail.
    unfold error_banner, input_section. simpl. by rewrite Hp.
  - intros file index e Hfail. cbn [settled]. by rewrite Hfail.
Qed.

Lemma results_page_failures_not_displayed_witness :
  error_banner
    (settled sample_world (AwaitPpt (merge_visuals sample_data (config sample_ready)))
       sample_shown)
  = false.
Proof.
  destruct (results_page_failures_not_displayed sample_world sample_shown
              (merge_visuals sample_data (config sample_ready)) eq_refl)
    as (_ & Hexport & _).
  apply (Hexport (Error "serializer failed")). reflexivity.
Defined.

(** ** Text typed while a file is being read *)

(** A plain-text file is chosen and, before it has been read, text is typed
    into the text tab.  When the read succeeds with at least 50 characters
    the typed text is replaced by the file's; when the read fails the typed
    text stays, the status is [ERROR] and the message is the error's, or
    "Failed to parse file." when it has none. *)
Theorem typed_text_and_pending_upload w s l file v :
  input_section s = true ->
  tab_is tab_upload s = true ->
  status s <> PARSING_PDF ->
  file_type file = lit "text/plain" ->
  (forall text,
     file_text w file = Resolved text ->
     50 <= length text ->
     inputText
       (app (run w (mkSys s l)
               [User (ChangeFileInput (Some file)); User (ClickTab tab_text);
                User (ChangeTextarea v); Settle (length l)]))
     = text)
  /\ (forall e,
        file_text w file = Rejected e ->
        inputText
          (app (run w (mkSys s l)
                  [User (ChangeFileInput (Some file)); User (ClickTab tab_text);
                   User (ChangeTextarea v); Settle (length l)]))
        = v
        /\ status
             (app (run w (mkSys s l)
                     [User (ChangeFileInput (Some file)); User (ClickTab tab_text);
                      User (ChangeTextarea v); Settle (length l)]))
           = ERROR
        /\ errorMsg
             (app (run w (mkSys s l)
                     [User (ChangeFileInput (Some file)); User (ClickTab tab_text);
                      User (ChangeTextarea v); Settle (length l)]))
           = Some (or_else (message e) (lit "Failed to parse file."))).
Proof.
  intros Hsection Htab Hstatus Htype.
  assert (Hrun : run w (mkSys s l)
                   [User (ChangeFileInput (Some file)); User (ClickTab tab_text);
                    User (ChangeTextarea v); Settle (length l)]
                 = mkSys
                     (settled w (AwaitFileText file)
                        (setInputText v
                           (setActiveTab tab_text
                              (setErrorMsg None (setStatus PARSING_PDF s)))))
                     l).
  { unfold run. cbn [foldl].
    change (step w (mkSys s l) (User (ChangeFileInput (Some file))))
      with (dispatch (mkSys s l) (ChangeFileInput (Some file))).
    rewrite (dispatch_enabled (mkSys s l)).
    2:{ cbn [enabled app]. rewrite Hsection, Htab.
        destruct (status_is PARSING_PDF s) eqn:Hs; [|done].
        by apply status_is_true in Hs. }
    cbn [handler app in_flight]. unfold handleFileUpload, is_pdf, is_plain_text.
    rewrite Htype. cbn [fst snd option_list bool_decide].
    replace (bool_decide (lit "text/plain" = lit "application/pdf")) with false
      by reflexivity.
    replace (bool_decide (lit "text/plain" = lit "text/plain")) with true
      by reflexivity.
    cbn [fst snd option_list].
    change (step w ?sys (User (ClickTab tab_text)))
      with (dispatch sys (ClickTab tab_text)).
    rewrite dispatch_enabled by exact Hsection.
    cbn [handler fst snd option_list app in_flight]. rewrite app_nil_r.
    change (step w ?sys (User (ChangeTextarea v)))
      with (dispatch sys (ChangeTextarea v)).
    rewrite dispatch_enabled.
    2:{ cbn [enabled app]. unfold input_section, tab_is in *. simpl.
        by rewrite Hsection. }
    cbn [handler fst snd option_list app in_flight]. rewrite app_nil_r.
    change (option_list (Some (AwaitFileText file))) with [AwaitFileText file].
    by rewrite settle_at, app_nil_r. }
  rewrite Hrun. cbn [app settled]. split.
  - intros text Hread Hlong. rewrite Hread. unfold handleFileUpload_settled.
    by destruct (Nat.ltb_spec (length text) 50); [lia|].
  - intros e Hfail. by rewrite Hfail.
Qed.

Lemma typed_text_and_pending_upload_witness :
  inputText
    (app (run sample_world (mkSys initial_state [])
            [User (ChangeFileInput (Some txt_file)); User (ClickTab tab_text);
             User (ChangeTextarea (lit "typed")); Settle 0]))
  = sample_text.
Proof.
  assert (Hstatus : status initial_state <> PARSING_PDF) by discriminate.
  destruct (typed_text_and_pending_upload sample_world initial_state []
              txt_file (lit "typed") eq_refl eq_refl Hstatus eq_refl)
    as [Hok _].
  apply (Hok sample_text); [reflexivity|]. vm_compute. lia.
Defined.
